(** * Session persistence of the WhatsApp chatbot

    A shallow embedding of [services/session_storage.py] (the two-tier
    session store), [models.py] (ChatSession), [services/openai_service.py]
    (the model adapter's result) and [services/chat_service.py] (the
    conversation orchestrator), with the properties of the specification
    stated over it.

    Conventions.
    - A Python [dict] with string keys is a [gmap string _]; [k in d] is
      [d !! k] being [Some _].
    - The values a session record may hold are the JSON-native Python values
      and [datetime] ([pyval]).  Floats, tuples, sets and timezone-aware
      datetimes are outside the model.
    - A [try: ... except Exception:] block is a match on an [outcome]:
      [Return x] when the body ran to its end, [Raise] when it raised.
    - The Redis client and the OpenAI client are outside the repository.  What
      a call to them answers is an input of the operation that makes the call
      ([link], [setex_reply], [completion]); the program decides nothing
      about it.
    - [datetime.now()] is an input as well: each operation receives the
      instant at which it runs.
    - The interpreter is CPython with its default settings: converting an
      [int] to or from a decimal text of more than 4300 digits raises
      ValueError.  Values nested deeper than the interpreter's recursion
      limit are outside the model. *)

From stdpp Require Import gmap strings list fin_maps.
From Stdlib Require Import ZArith Ascii Lia.

#[local] Set Warnings "-register-all".

Local Open Scope string_scope.
Local Open Scope Z_scope.

(** ** Results of code that may raise *)

Inductive outcome (A : Type) : Type :=
| Return (a : A)
| Raise.
Arguments Return {A} a.
Arguments Raise {A}.

Global Instance outcome_ret : MRet outcome := fun A a => Return a.
Global Instance outcome_bind : MBind outcome := fun A B f x =>
  match x with
  | Return a => f a
  | Raise => Raise
  end.

(** ** Naive datetimes ([datetime.datetime] with [tzinfo=None]) *)

Module Datetime.

Definition is_leap (y : Z) : bool :=
  (y mod 4 =? 0) && (negb (y mod 100 =? 0) || (y mod 400 =? 0)).

Definition days_in_month (y m : Z) : Z :=
  if m =? 2 then (if is_leap y then 29 else 28)
  else if (m =? 4) || (m =? 6) || (m =? 9) || (m =? 11) then 30
  else 31.

(** The ranges the [datetime] constructor enforces (MINYEAR = 1,
    MAXYEAR = 9999). *)
Definition valid_fields (y mo d h mi s us : Z) : bool :=
  (1 <=? y) && (y <=? 9999) && (1 <=? mo) && (mo <=? 12) &&
  (1 <=? d) && (d <=? days_in_month y mo) &&
  (0 <=? h) && (h <? 24) && (0 <=? mi) && (mi <? 60) &&
  (0 <=? s) && (s <? 60) && (0 <=? us) && (us <? 1000000).

Record datetime : Type := mk {
  year : Z; month : Z; day : Z;
  hour : Z; minute : Z; second : Z; microsecond : Z;
  in_range : Is_true (valid_fields year month day hour minute second microsecond)
}.

(** The constructor: raises ValueError on fields out of range. *)
Definition make (y mo d h mi s us : Z) : option datetime :=
  match decide (Is_true (valid_fields y mo d h mi s us)) with
  | left ok => Some (mk y mo d h mi s us ok)
  | right _ => None
  end.

(** *** Subtraction and comparison with a timedelta *)

Definition days_before_year (y : Z) : Z :=
  let p := y - 1 in p * 365 + p / 4 - p / 100 + p / 400.

Fixpoint days_before_month_aux (y : Z) (m : nat) : Z :=
  match m with
  | O => 0
  | S m' => days_before_month_aux y m' + days_in_month y (Z.of_nat m)
  end.

Definition days_before_month (y m : Z) : Z :=
  days_before_month_aux y (Z.to_nat (m - 1)).

Definition toordinal (t : datetime) : Z :=
  days_before_year (year t) + days_before_month (year t) (month t) + day t.

Definition seconds_of_day (t : datetime) : Z :=
  second t + minute t * 60 + hour t * 3600.

(** [a - b] as a number of microseconds: [datetime.__sub__] builds
    [timedelta(days1 - days2, secs1 - secs2, us1 - us2)]. *)
Definition sub (a b : datetime) : Z :=
  ((toordinal a - toordinal b) * 86400 + (seconds_of_day a - seconds_of_day b)) * 1000000
  + (microsecond a - microsecond b).

(** The position of an instant on the time line, in microseconds: what
    the differences computed by [sub] are differences of. *)
Definition timestamp (t : datetime) : Z :=
  (toordinal t * 86400 + seconds_of_day t) * 1000000 + microsecond t.

(** The length of [n] seconds, in microseconds. *)
Definition timedelta_seconds (n : Z) : Z := n * 1000000.

(** [timedelta(seconds=n)]: the constructor normalises to days, seconds and
    microseconds ([days = n // 86400]) and raises OverflowError ([None])
    unless [-999999999 <= days <= 999999999].  The result is represented by
    its length in microseconds. *)
Definition timedelta (n : Z) : option Z :=
  if (-999999999 <=? n / 86400) && (n / 86400 <=? 999999999)
  then Some (timedelta_seconds n)
  else None.

(** *** ISO format *)

Definition digit_char (d : Z) : ascii := ascii_of_N (Z.to_N (48 + d)).

Definition digit_val (c : ascii) : option Z :=
  let n := Z.of_N (N_of_ascii c) in
  if (48 <=? n) && (n <=? 57) then Some (n - 48) else None.

(** [digits k n rest] writes the [k] low decimal digits of [n], most
    significant first, in front of [rest] (the ["%0kd"] of a number below
    [10^k]). *)
Fixpoint digits (k : nat) (n : Z) (rest : string) : string :=
  match k with
  | O => rest
  | S k' => digits k' (n / 10) (String (digit_char (n mod 10)) rest)
  end.

Fixpoint read_digits (k : nat) (acc : Z) (s : string) : option (Z * string) :=
  match k with
  | O => Some (acc, s)
  | S k' =>
      match s with
      | String c s' =>
          match digit_val c with
          | Some d => read_digits k' (10 * acc + d) s'
          | None => None
          end
      | EmptyString => None
      end
  end.

Definition expect (c : ascii) (s : string) : option string :=
  match s with
  | String c' s' => if Ascii.eqb c c' then Some s' else None
  | EmptyString => None
  end.

(** [datetime.isoformat()]: [YYYY-MM-DDTHH:MM:SS], followed by [.ffffff]
    when the microsecond field is not zero. *)
Definition isoformat (t : datetime) : string :=
  digits 4 (year t) (String "-" (digits 2 (month t) (String "-" (digits 2 (day t)
    (String "T" (digits 2 (hour t) (String ":" (digits 2 (minute t) (String ":"
      (digits 2 (second t)
         (if microsecond t =? 0 then EmptyString
          else String "." (digits 6 (microsecond t) EmptyString)))))))))))).

Definition read_fraction (s : string) : option Z :=
  match s with
  | EmptyString => Some 0
  | _ =>
      match expect "." s with
      | Some s1 =>
          match read_digits 6 0 s1 with
          | Some (us, EmptyString) => Some us
          | _ => None
          end
      | None => None
      end
  end.

(** [datetime.fromisoformat] on the two spellings [isoformat] emits for a
    naive datetime; [None] is ValueError.  (CPython's parser accepts
    further spellings, which this program never writes; they are not
    modelled.) *)
Definition fromisoformat (s : string) : option datetime :=
  '(y, s) ← read_digits 4 0 s;
  s ← expect "-" s;
  '(mo, s) ← read_digits 2 0 s;
  s ← expect "-" s;
  '(d, s) ← read_digits 2 0 s;
  s ← expect "T" s;
  '(h, s) ← read_digits 2 0 s;
  s ← expect ":" s;
  '(mi, s) ← read_digits 2 0 s;
  s ← expect ":" s;
  '(sec, s) ← read_digits 2 0 s;
  us ← read_fraction s;
  make y mo d h mi sec us.

End Datetime.

Abbreviation datetime := Datetime.datetime.

(** ** Python values and JSON documents *)

(** What a session record may hold: [None], [bool], [int], [str],
    [datetime], [list] and [dict] with string keys. *)
Inductive pyval : Type :=
| PNone
| PBool (b : bool)
| PInt (z : Z)
| PStr (s : string)
| PDatetime (t : datetime)
| PList (l : list pyval)
| PDict (m : gmap string pyval).

(** The document a JSON text denotes.  The durable tier stores JSON texts;
    they are represented by the document they denote. *)
Inductive json : Type :=
| JNull
| JBool (b : bool)
| JInt (z : Z)
| JStr (s : string)
| JArr (l : list json)
| JObj (m : gmap string json).

(** An [int] whose decimal text has at most 4300 digits: [str(n)] and
    [int(text)] raise ValueError beyond. *)
Definition printable_int (z : Z) : bool := Z.abs z <? 10 ^ 4300.
Arguments printable_int : simpl never.

(** [json.dumps] raises when its argument holds, at any depth, a value that
    is not JSON-serialisable (TypeError; among [pyval] that is [datetime])
    or an [int] of more than 4300 digits (ValueError). *)
Fixpoint jsonable (v : pyval) : bool :=
  match v with
  | PDatetime _ => false
  | PInt z => printable_int z
  | PList l => forallb jsonable l
  | PDict m => map_fold (fun _ x ok => jsonable x && ok) true m
  | _ => true
  end.

(** The document written for a serialisable value (it is not used on a
    value that holds a datetime). *)
Fixpoint to_json (v : pyval) : json :=
  match v with
  | PNone => JNull
  | PBool b => JBool b
  | PInt z => JInt z
  | PStr s => JStr s
  | PDatetime _ => JNull
  | PList l => JArr (to_json <$> l)
  | PDict m => JObj (to_json <$> m)
  end.

(** [json.loads] raises ValueError on a text that holds an integer literal
    of more than 4300 digits. *)
Fixpoint loadable (j : json) : bool :=
  match j with
  | JInt z => printable_int z
  | JArr l => forallb loadable l
  | JObj m => map_fold (fun _ x ok => loadable x && ok) true m
  | _ => true
  end.

(** The value [json.loads] returns for a text it accepts. *)
Fixpoint json_loads (j : json) : pyval :=
  match j with
  | JNull => PNone
  | JBool b => PBool b
  | JInt z => PInt z
  | JStr s => PStr s
  | JArr l => PList (json_loads <$> l)
  | JObj m => PDict (json_loads <$> m)
  end.

(** The measure the induction over nested values goes by. *)
Fixpoint pyval_size (v : pyval) : nat :=
  match v with
  | PList l => S (foldr (fun x n => pyval_size x + n)%nat 0%nat l)
  | PDict m => S (map_fold (fun _ x n => pyval_size x + n)%nat 0%nat m)
  | _ => 1%nat
  end.

(** ** models.py *)

Record OpenAIMessage : Type := { role : string; content : string }.

Record ChatSession : Type := {
  user_phone : string;
  messages : list OpenAIMessage;
  created_at : datetime;
  last_activity : datetime
}.

(** [ChatSession.add_message]; [now] is the reading of [datetime.now()]. *)
Definition add_message (now : datetime) (session : ChatSession) (r c : string) : ChatSession :=
  {| user_phone := user_phone session;
     messages := messages session ++ [{| role := r; content := c |}];
     created_at := created_at session;
     last_activity := now |}.

(** Python's [l[start:]] for a possibly negative [start]. *)
Definition slice_from {A} (start : Z) (l : list A) : list A :=
  let n := Z.of_nat (length l) in
  let i := if start <? 0 then Z.max 0 (start + n) else Z.min start n in
  drop (Z.to_nat i) l.

(** [ChatSession.get_conversation_history] *)
Definition get_conversation_history (session : ChatSession) (max_messages : Z)
  : list OpenAIMessage :=
  if Z.of_nat (length (messages session)) >? max_messages
  then slice_from (- max_messages) (messages session)
  else messages session.

(** The default of the [max_messages] argument. *)
Definition default_max_messages : Z := 10.

(** ** config.py *)

Record Settings : Type := { session_ttl : Z }.

(** [session_ttl: int = 86400] *)
Definition default_settings : Settings := {| session_ttl := 86400 |}.

(** ** The Redis client *)

(** How a GET, DEL or PING command ends: answered, or ConnectionError /
    TimeoutError raised by the client. *)
Inductive link : Type := Up | Down.

(** How a SETEX command ends: answered with a truthy value (the value is
    stored), answered with a falsy value, or an exception raised. *)
Inductive setex_reply : Type := SetexOk | SetexFalsy | SetexRaises.

(** The answers redis-py's [setex] gives: the reply [+OK] of the server is
    returned as [True]; an error reply, a lost connection and a timeout are
    raised.  A falsy value is returned by no path of that client. *)
Definition redis_py_reply (o : setex_reply) : bool :=
  match o with
  | SetexOk | SetexRaises => true
  | SetexFalsy => false
  end.

(** The texts stored on the server, by key.  Keys under the session prefix
    are written by [save_session] only, so each text is the serialisation of
    a dict: it is represented by the members of that JSON object. *)
Abbreviation redis_contents := (gmap string (gmap string json)).

Definition redis_get (lk : link) (key : string) (db : redis_contents)
  : outcome (option (gmap string json)) :=
  match lk with
  | Up => Return (db !! key)
  | Down => Raise
  end.

(** [setex(key, ttl, text)].  The server drops the key once [ttl] seconds
    have passed; that is a step of the server between operations and no
    operation below lets time pass. *)
Definition redis_setex (o : setex_reply) (key : string) (ttl : Z)
    (text : gmap string json) (db : redis_contents) : outcome (bool * redis_contents) :=
  match o with
  | SetexOk => Return (true, <[key := text]> db)
  | SetexFalsy => Return (false, db)
  | SetexRaises => Raise
  end.

(** [delete(key)] answers the number of keys removed. *)
Definition redis_delete (lk : link) (key : string) (db : redis_contents)
  : outcome (Z * redis_contents) :=
  match lk with
  | Up => Return (match db !! key with Some _ => 1 | None => 0 end, delete key db)
  | Down => Raise
  end.

(** ** services/session_storage.py *)

Abbreviation session_record := (gmap string pyval).

(** The state the store works on: the contents of the Redis server behind
    [redis_client], the in-process dict, and the flag set at start-up
    ([redis_client] is set exactly when [use_redis] is). *)
Record SessionStorage : Type := {
  redis_db : redis_contents;
  fallback_storage : gmap string session_record;
  use_redis : bool
}.

Definition set_fallback (fb : gmap string session_record) (st : SessionStorage) : SessionStorage :=
  {| redis_db := redis_db st; fallback_storage := fb; use_redis := use_redis st |}.

Definition set_redis (db : redis_contents) (st : SessionStorage) : SessionStorage :=
  {| redis_db := db; fallback_storage := fallback_storage st; use_redis := use_redis st |}.

(** [__init__] and [_initialize_redis]: [ping] is how the connection test
    ends, [db] what the server holds. *)
Definition _initialize_redis (ping : link) (db : redis_contents) : SessionStorage :=
  {| redis_db := db;
     fallback_storage := ∅;
     use_redis := match ping with Up => true | Down => false end |}.

Definition _get_redis_key (user_phone : string) : string :=
  "whatsapp_session:" +:+ user_phone.

(** [if k in d: d[k] = d[k].isoformat()]: AttributeError on a value that is
    not a datetime. *)
Definition isoformat_field (k : string) (d : session_record) : outcome session_record :=
  match d !! k with
  | None => Return d
  | Some (PDatetime t) => Return (<[k := PStr (Datetime.isoformat t)]> d)
  | Some _ => Raise
  end.

(** [json.dumps] of a dict: TypeError or ValueError as [jsonable] says. *)
Definition json_dumps_dict (d : session_record) : outcome (gmap string json) :=
  if jsonable (PDict d) then Return (to_json <$> d) else Raise.

Definition _serialize_session (session_data : session_record) : outcome (gmap string json) :=
  d ← isoformat_field "created_at" session_data;
  d ← isoformat_field "last_activity" d;
  json_dumps_dict d.

(** [if k in d: d[k] = datetime.fromisoformat(d[k])]: TypeError on a value
    that is not a string, ValueError on a string that does not parse. *)
Definition fromisoformat_field (k : string) (d : session_record) : outcome session_record :=
  match d !! k with
  | None => Return d
  | Some (PStr s) =>
      match Datetime.fromisoformat s with
      | Some t => Return (<[k := PDatetime t]> d)
      | None => Raise
      end
  | Some _ => Raise
  end.

(** [json.loads] of the text of an object. *)
Definition json_loads_dict (session_json : gmap string json) : outcome session_record :=
  if loadable (JObj session_json) then Return (json_loads <$> session_json) else Raise.

Definition _deserialize_session (session_json : gmap string json) : outcome session_record :=
  d ← json_loads_dict session_json;
  d ← fromisoformat_field "created_at" d;
  fromisoformat_field "last_activity" d.

(** The Redis branch of [get_session], up to its [return]. *)
Definition read_through_redis (lk : link) (user_phone : string) (st : SessionStorage)
  : outcome (option session_record) :=
  session_json ← redis_get lk (_get_redis_key user_phone) (redis_db st);
  match session_json with
  | Some text => session_data ← _deserialize_session text; Return (Some session_data)
  | None => Return (fallback_storage st !! user_phone)
  end.

(** [get_session]: [None] is Python's [None]. *)
Definition get_session (lk : link) (user_phone : string) (st : SessionStorage)
  : option session_record :=
  if use_redis st then
    match read_through_redis lk user_phone st with
    | Return r => r
    | Raise => fallback_storage st !! user_phone
    end
  else fallback_storage st !! user_phone.

(** The Redis branch of [save_session], up to the answer of SETEX. *)
Definition write_through_redis (cfg : Settings) (o : setex_reply) (user_phone : string)
    (session_data : session_record) (db : redis_contents) : outcome (bool * redis_contents) :=
  session_json ← _serialize_session session_data;
  redis_setex o (_get_redis_key user_phone) (session_ttl cfg) session_json db.

Definition save_session (cfg : Settings) (o : setex_reply) (user_phone : string)
    (session_data : session_record) (st : SessionStorage) : bool * SessionStorage :=
  let st1 := set_fallback (<[user_phone := session_data]> (fallback_storage st)) st in
  if use_redis st then
    match write_through_redis cfg o user_phone session_data (redis_db st) with
    | Return r => (if fst r then true else false, set_redis (snd r) st1)
    | Raise => (true, st1)
    end
  else (true, st1).

Definition delete_session (lk : link) (user_phone : string) (st : SessionStorage)
  : bool * SessionStorage :=
  let st1 := set_fallback (delete user_phone (fallback_storage st)) st in
  if use_redis st then
    match redis_delete lk (_get_redis_key user_phone) (redis_db st) with
    | Return r => (true, set_redis (snd r) st1)
    | Raise => (false, st1)
    end
  else (true, st1).

(** The value subtracted from [current_time]: a string goes through
    [fromisoformat] first; anything but a datetime makes the subtraction
    raise TypeError. *)
Definition as_datetime (v : pyval) : outcome datetime :=
  match v with
  | PDatetime t => Return t
  | PStr s =>
      match Datetime.fromisoformat s with
      | Some t => Return t
      | None => Raise
      end
  | _ => Raise
  end.

(** The body of the scanning loop for one entry: does it go on the
    [expired_sessions] list?  The subtraction is evaluated first, then
    [timedelta(seconds=settings.session_ttl)], which raises OverflowError
    on a TTL beyond the range of a timedelta. *)
Definition is_expired (cfg : Settings) (current_time : datetime)
    (session_data : session_record) : outcome bool :=
  match session_data !! "last_activity" with
  | None => Return false
  | Some v =>
      match as_datetime v with
      | Return last_activity =>
          match Datetime.timedelta (session_ttl cfg) with
          | Some ttl => Return (Datetime.sub current_time last_activity >? ttl)
          | None => Raise
          end
      | Raise => Raise
      end
  end.

(** The scanning loop over [fallback_storage.items()]. *)
Fixpoint scan_expired (cfg : Settings) (current_time : datetime)
    (items : list (string * session_record)) : outcome (list string) :=
  match items with
  | [] => Return []
  | (user_phone, session_data) :: rest =>
      match is_expired cfg current_time session_data with
      | Return expired =>
          match scan_expired cfg current_time rest with
          | Return expired_sessions =>
              Return (if expired then user_phone :: expired_sessions else expired_sessions)
          | Raise => Raise
          end
      | Raise => Raise
      end
  end.

(** The removal loop: [del fallback_storage[user_phone]; expired_count += 1]. *)
Definition remove_expired (expired_sessions : list string)
    (fb : gmap string session_record) : Z * gmap string session_record :=
  foldl (fun acc user_phone => (fst acc + 1, delete user_phone (snd acc)))
        (0, fb) expired_sessions.

Definition sweep_fallback (cfg : Settings) (current_time : datetime)
    (st : SessionStorage) : outcome (Z * SessionStorage) :=
  match scan_expired cfg current_time (map_to_list (fallback_storage st)) with
  | Return expired_sessions =>
      let r := remove_expired expired_sessions (fallback_storage st) in
      Return (fst r, set_fallback (snd r) st)
  | Raise => Raise
  end.

(** [cleanup_expired_sessions]; the two branches of the source run the same
    scan of the fallback dict.  The dict is visited in the order of
    [map_to_list]; the order changes neither the entries listed nor whether
    the scan raises. *)
Definition cleanup_expired_sessions (cfg : Settings) (now : datetime)
    (st : SessionStorage) : Z * SessionStorage :=
  match (if use_redis st then sweep_fallback cfg now st else sweep_fallback cfg now st) with
  | Return r => r
  | Raise => (0, st)
  end.

(** ** services/openai_service.py *)

(** What [client.chat.completions.create] does: it answers with choices
    (the content of the first one, [None] when the API sends no content),
    answers with an empty list of choices, or raises. *)
Inductive completion : Type :=
| Choices (first_content : option string)
| NoChoices
| AuthenticationError
| RateLimitError
| APIError
| OtherError.

(** [generate_response]: every [except] clause returns [None]; so does a
    first choice without content, since [len(content)] raises inside the
    [try]. *)
Definition generate_response (api : list OpenAIMessage -> completion)
    (messages : list OpenAIMessage) : option string :=
  match api messages with
  | Choices (Some text) => Some text
  | Choices None => None
  | NoChoices => None
  | AuthenticationError => None
  | RateLimitError => None
  | APIError => None
  | OtherError => None
  end.

Definition system_prompt : string :=
  "You are a helpful and friendly WhatsApp chatbot assistant.
        You should be conversational, concise, and helpful.
        Keep responses under 500 characters when possible, as this is for WhatsApp messaging.
        Be polite, professional, and engaging in your responses.".

Definition create_system_message : OpenAIMessage :=
  {| role := "system"; content := system_prompt |}.

(** ** services/chat_service.py *)

(** [msg.dict()] *)
Definition message_dict (msg : OpenAIMessage) : pyval :=
  PDict (<["role" := PStr (role msg)]> (<["content" := PStr (content msg)]> ∅)).

(** The [session_data] dict built by [_save_session_to_storage]. *)
Definition session_data_of (session : ChatSession) : session_record :=
  <["user_phone" := PStr (user_phone session)]>
  (<["messages" := PList (message_dict <$> messages session)]>
  (<["created_at" := PDatetime (created_at session)]>
  (<["last_activity" := PDatetime (last_activity session)]> ∅))).

(** [_save_session_to_storage]: the verdict of [save_session] is only
    logged. *)
Definition _save_session_to_storage (cfg : Settings) (o : setex_reply)
    (session : ChatSession) (st : SessionStorage) : SessionStorage :=
  snd (save_session cfg o (user_phone session) (session_data_of session) st).

(** [d[k]]: KeyError when the key is missing. *)
Definition getitem (k : string) (d : session_record) : outcome pyval :=
  match d !! k with
  | Some v => Return v
  | None => Raise
  end.

(** Validation of a [str] field and of a [datetime] field by pydantic.
    A value of another type is taken to fail validation (pydantic's
    coercions between types are not modelled). *)
Definition str_field (v : pyval) : outcome string :=
  match v with
  | PStr s => Return s
  | _ => Raise
  end.

Definition datetime_field (v : pyval) : outcome datetime :=
  match v with
  | PDatetime t => Return t
  | _ => Raise
  end.

(** [OpenAIMessage] built from the entries of [msg] as keyword arguments:
    [msg] has to be a mapping holding [role] and [content]; further keys
    are ignored. *)
Definition message_of (msg : pyval) : outcome OpenAIMessage :=
  match msg with
  | PDict m =>
      r ← getitem "role" m ≫= str_field;
      c ← getitem "content" m ≫= str_field;
      Return {| role := r; content := c |}
  | _ => Raise
  end.

Fixpoint messages_of_list (l : list pyval) : outcome (list OpenAIMessage) :=
  match l with
  | [] => Return []
  | msg :: rest =>
      m ← message_of msg;
      ms ← messages_of_list rest;
      Return (m :: ms)
  end.

(** The list comprehension over [session_data['messages']]: iterating over
    an empty string or an empty dict yields nothing; over a non-empty one
    it yields strings, which cannot be unpacked as keyword arguments; the
    other values are not iterable. *)
Definition messages_of (v : pyval) : outcome (list OpenAIMessage) :=
  match v with
  | PList l => messages_of_list l
  | PStr s => if decide (s = EmptyString) then Return [] else Raise
  | PDict m => if decide (size m = 0%nat) then Return [] else Raise
  | _ => Raise
  end.

(** The reconstruction of a [ChatSession] from stored data. *)
Definition chat_session_of (session_data : session_record) : outcome ChatSession :=
  u ← getitem "user_phone" session_data ≫= str_field;
  ms ← getitem "messages" session_data ≫= messages_of;
  c ← getitem "created_at" session_data ≫= datetime_field;
  a ← getitem "last_activity" session_data ≫= datetime_field;
  Return {| user_phone := u; messages := ms; created_at := c; last_activity := a |}.

(** [_cleanup_expired_sessions]: the count is only logged. *)
Definition _cleanup_expired_sessions (cfg : Settings) (now : datetime)
    (st : SessionStorage) : SessionStorage :=
  snd (cleanup_expired_sessions cfg now st).

(** [if session_data:] a dict is truthy when it is not empty. *)
Definition truthy_dict (d : option session_record) : option session_record :=
  match d with
  | Some m => if decide (size m = 0%nat) then None else Some m
  | None => None
  end.

(** [ChatSession(user_phone=...)] followed by [add_message] of the system
    message. *)
Definition new_session (now : datetime) (user_phone : string) : ChatSession :=
  add_message now
    {| user_phone := user_phone; messages := []; created_at := now; last_activity := now |}
    (role create_system_message) (content create_system_message).

(** [get_or_create_session]: [lk] is how the GET of the lookup ends, [o] how
    the SETEX of a newly created session ends. *)
Definition get_or_create_session (cfg : Settings) (now : datetime) (lk : link)
    (o : setex_reply) (user_phone : string) (st : SessionStorage)
  : outcome ChatSession * SessionStorage :=
  let st := _cleanup_expired_sessions cfg now st in
  match truthy_dict (get_session lk user_phone st) with
  | Some session_data => (chat_session_of session_data, st)
  | None =>
      let session := new_session now user_phone in
      (Return session, _save_session_to_storage cfg o session st)
  end.

Definition fallback_response : string :=
  "I'm sorry, I'm having trouble processing your message right now. Please try again in a moment.".

Definition error_response : string :=
  "I'm sorry, something went wrong. Please try again later.".

(** What one call of [process_message] does: the text returned, the list of
    messages handed to the model adapter (when it was called) and the store
    afterwards. *)
Record turn : Type := {
  reply : string;
  presented : option (list OpenAIMessage);
  store : SessionStorage
}.

(** [if ai_response:] [None] and the empty string are falsy. *)
Definition truthy_str (r : option string) : option string :=
  match r with
  | Some s => if decide (s = EmptyString) then None else Some s
  | None => None
  end.

(** [process_message]: [now] is the clock while the message is taken in,
    [later] the clock once the adapter has answered; [o1] is the SETEX of
    a newly created session, [o2] the SETEX of the final save. *)
Definition process_message (cfg : Settings) (now later : datetime) (lk : link)
    (o1 o2 : setex_reply) (api : list OpenAIMessage -> completion)
    (user_phone message : string) (st : SessionStorage) : turn :=
  match get_or_create_session cfg now lk o1 user_phone st with
  | (Return session, st1) =>
      let session := add_message now session "user" message in
      let conversation_history := get_conversation_history session default_max_messages in
      match truthy_str (generate_response api conversation_history) with
      | Some ai_response =>
          let session := add_message later session "assistant" ai_response in
          {| reply := ai_response;
             presented := Some conversation_history;
             store := _save_session_to_storage cfg o2 session st1 |}
      | None =>
          {| reply := fallback_response;
             presented := Some conversation_history;
             store := st1 |}
      end
  | (Raise, st1) =>
      {| reply := error_response; presented := None; store := st1 |}
  end.

(** The dict returned by [get_session_info]. *)
Record session_info : Type := {
  info_user_phone : pyval;
  message_count : Z;
  info_created_at : string;
  info_last_activity : string;
  is_active : bool
}.

(** [len(v)]: TypeError on a value without a length. *)
Definition py_len (v : pyval) : outcome Z :=
  match v with
  | PList l => Return (Z.of_nat (length l))
  | PStr s => Return (Z.of_nat (String.length s))
  | PDict m => Return (Z.of_nat (size m))
  | _ => Raise
  end.

(** [timedelta(seconds=86400)] is within the range of a timedelta; its
    length is [timedelta_seconds 86400]. *)
Definition build_session_info (now : datetime) (session_data : session_record)
  : outcome session_info :=
  u ← getitem "user_phone" session_data;
  n ← getitem "messages" session_data ≫= py_len;
  c ← getitem "created_at" session_data ≫= datetime_field;
  a ← getitem "last_activity" session_data ≫= datetime_field;
  Return {| info_user_phone := u;
            message_count := n;
            info_created_at := Datetime.isoformat c;
            info_last_activity := Datetime.isoformat a;
            is_active := Datetime.sub now a <? Datetime.timedelta_seconds 86400 |}.

(** [get_session_info]: [None] for a missing session and for any exception.
    The source does not read the settings here. *)
Definition get_session_info (now : datetime) (lk : link)
    (user_phone : string) (st : SessionStorage) : option session_info :=
  match truthy_dict (get_session lk user_phone st) with
  | Some session_data =>
      match build_session_info now session_data with
      | Return info => Some info
      | Raise => None
      end
  | None => None
  end.

(** [clear_session]: documented as "True if session was cleared, False if
    not found". *)
Definition clear_session (lk : link) (user_phone : string) (st : SessionStorage)
  : bool * SessionStorage :=
  let r := delete_session lk user_phone st in
  (if fst r then true else false, snd r).

(** ** The expiry rule of the specification *)

(** "[last_activity] precedes [now - ttl]", on the time line. *)
Definition precedes_cutoff (cfg : Settings) (now last : datetime) : bool :=
  Datetime.timestamp last <? Datetime.timestamp now - session_ttl cfg * 1000000.

(** The instant a stored value stands for: a datetime stands for itself, a
    text in the format [YYYY-MM-DDTHH:MM:SS] or [YYYY-MM-DDTHH:MM:SS.ffffff]
    for the datetime it spells. *)
Definition instant_of (v : pyval) : option datetime :=
  match v with
  | PDatetime t => Some t
  | PStr text => Datetime.fromisoformat text
  | _ => None
  end.

(** An entry is stale when it carries a [last_activity] that stands for an
    instant preceding the cut-off. *)
Definition stale (cfg : Settings) (now : datetime) (session_data : session_record) : bool :=
  match session_data !! "last_activity" ≫= instant_of with
  | Some last => precedes_cutoff cfg now last
  | None => false
  end.

(** Every [last_activity] held in the fallback tier stands for an instant. *)
Definition timestamps_readable (fb : gmap string session_record) : Prop :=
  forall u session_data v,
    fb !! u = Some session_data -> session_data !! "last_activity" = Some v ->
    is_Some (instant_of v).

(** The configured TTL is a duration [timedelta] can hold: at most
    999999999 days on either side. *)
Definition ttl_in_range (cfg : Settings) : Prop :=
  -999999999 * 86400 <= session_ttl cfg < 1000000000 * 86400.

(** ** Sample data for the scenarios *)

Definition noon : datetime := Datetime.mk 2024 1 1 12 0 0 0 I.
Definition one_pm : datetime := Datetime.mk 2024 1 1 13 0 0 0 I.
Definition two_pm : datetime := Datetime.mk 2024 1 1 14 0 0 250000 I.
Definition next_month : datetime := Datetime.mk 2024 2 1 12 0 0 0 I.

(** A store whose Redis answered the start-up ping and holds nothing, and
    one whose Redis did not answer. *)
Definition connected_store : SessionStorage := _initialize_redis Up ∅.
Definition offline_store : SessionStorage := _initialize_redis Down ∅.

Definition greeting : OpenAIMessage := {| role := "user"; content := "hello" |}.

Definition sample_session (opened touched : datetime) (ms : list OpenAIMessage) : ChatSession :=
  {| user_phone := "+15550100"; messages := ms; created_at := opened; last_activity := touched |}.

Definition old_record : session_record :=
  session_data_of (sample_session noon noon [create_system_message]).

Definition new_record : session_record :=
  session_data_of (sample_session noon one_pm [create_system_message; greeting]).

(** The JSON text [new_record] is written as. *)
Definition new_record_text : gmap string json :=
  to_json <$> (<["created_at" := PStr "2024-01-01T12:00:00"]>
                 (<["last_activity" := PStr "2024-01-01T13:00:00"]> new_record)).

(** A conversation of fifteen messages, and a store that holds it. *)
Definition fifteen_messages : list OpenAIMessage :=
  create_system_message ::
  flat_map (fun n => [ {| role := "user"; content := "question " +:+ n |};
                       {| role := "assistant"; content := "answer " +:+ n |} ])
           ["1"; "2"; "3"; "4"; "5"; "6"; "7"].

Definition busy_store : SessionStorage :=
  (save_session default_settings SetexOk "+15550100"
     (session_data_of (sample_session noon noon fifteen_messages)) connected_store).2.

(** The model adapter failing: no content, an empty text, no choices, or one
    of the exceptions. *)
Definition adapter_fails (c : completion) : Prop :=
  match c with
  | Choices (Some text) => text = EmptyString
  | _ => True
  end.

(** A fallback tier with a stale entry, a fresh one, and one whose record has
    no [last_activity]. *)
Definition mixed_store : SessionStorage :=
  {| redis_db := ∅;
     fallback_storage :=
       <["old" := session_data_of (sample_session noon noon [create_system_message])]>
       (<["new" := session_data_of (sample_session noon next_month [create_system_message])]>
       (<["bare" := <["user_phone" := PStr "bare"]> ∅]> ∅));
     use_redis := true |}.

(** ** Strings *)

(** [s.replace(old, new)] for a pattern [old] that is not empty: the text is
    scanned from the left, an occurrence of [old] is replaced and the scan
    goes on behind it.  [skip] counts the characters of an occurrence still
    to be passed over. *)
Fixpoint replace_scan (old new : string) (skip : nat) (s : string) : string :=
  match s with
  | EmptyString => EmptyString
  | String c rest =>
      match skip with
      | S k => replace_scan old new k rest
      | O =>
          if String.prefix old s
          then new +:+ replace_scan old new (String.length old - 1) rest
          else String c (replace_scan old new 0 rest)
      end
  end.

Definition str_replace (old new s : string) : string := replace_scan old new 0 s.

(** [s[n:]] *)
Fixpoint str_drop (n : nat) (s : string) : string :=
  match n, s with
  | S k, String _ rest => str_drop k rest
  | _, _ => s
  end.

(** ** Listing the sessions (services/session_storage.py) *)

(** [keys(pattern)] for a pattern made of a literal prefix and a final
    star: the keys that start with the prefix.  Redis does not specify the
    order of its answer; the keys come in the order of [map_to_list]. *)
Definition redis_keys (lk : link) (key_prefix : string) (db : redis_contents)
  : outcome (list string) :=
  match lk with
  | Up => Return (filter (fun k => String.prefix key_prefix k = true) (map_to_list db).*1)
  | Down => Raise
  end.

(** One round of the loop of [get_all_sessions]; [lk_get key] is how the
    GET issued for [key] ends. *)
Definition collect_session (lk_get : string -> link) (st : SessionStorage)
    (sessions : gmap string session_record) (key : string) : gmap string session_record :=
  let user_phone := str_replace "whatsapp_session:" "" key in
  match truthy_dict (get_session (lk_get key) user_phone st) with
  | Some session_data => <[user_phone := session_data]> sessions
  | None => sessions
  end.

(** [get_all_sessions]: [lk_keys] is how the KEYS command ends. *)
Definition get_all_sessions (lk_keys : link) (lk_get : string -> link)
    (st : SessionStorage) : gmap string session_record :=
  if use_redis st then
    match redis_keys lk_keys "whatsapp_session:" (redis_db st) with
    | Return keys => foldl (collect_session lk_get st) ∅ keys
    | Raise => fallback_storage st
    end
  else fallback_storage st.

(** ** Counting and clearing (services/chat_service.py, main.py) *)

(** [get_active_sessions_count]: the sweep, then the size of the listing. *)
Definition get_active_sessions_count (cfg : Settings) (now : datetime) (lk_keys : link)
    (lk_get : string -> link) (st : SessionStorage) : Z * SessionStorage :=
  let st := _cleanup_expired_sessions cfg now st in
  (Z.of_nat (size (get_all_sessions lk_keys lk_get st)), st).

(** The loop of [clear_all_sessions] in main.py over the users listed;
    [lk_del user] is how the DEL issued for [user] ends. *)
Definition clear_listed (lk_del : string -> link) (users : list string)
    (st : SessionStorage) : Z * SessionStorage :=
  foldl (fun acc user_phone =>
           let r := clear_session (lk_del user_phone) user_phone acc.2 in
           (if r.1 then acc.1 + 1 else acc.1, r.2))
        (0, st) users.

Definition clear_all_sessions (lk_keys : link) (lk_get lk_del : string -> link)
    (st : SessionStorage) : Z * SessionStorage :=
  clear_listed lk_del (map_to_list (get_all_sessions lk_keys lk_get st)).*1 st.

(** ** services/twilio_service.py *)

(** Characters are taken to have code points below 256; among those the
    class [\d] of a regular expression holds the ten ASCII digits. *)
Definition is_digit (c : ascii) : bool :=
  let n := N_of_ascii c in ((48 <=? n) && (n <=? 57))%N.

(** [re.sub(r'[^\d+]', '', s)]: every character that is neither a digit nor
    a plus sign is removed. *)
Fixpoint keep_digits_plus (s : string) : string :=
  match s with
  | EmptyString => EmptyString
  | String c rest =>
      if is_digit c || Ascii.eqb c "+"
      then String c (keep_digits_plus rest)
      else keep_digits_plus rest
  end.

Definition format_phone_number (phone : string) : string :=
  let phone := if String.prefix "whatsapp:" phone then str_drop 9 phone else phone in
  let phone := keep_digits_plus phone in
  let phone := if String.prefix "+" phone then phone else "+" +:+ phone in
  "whatsapp:" +:+ phone.

(** How [client.messages.create] ends. *)
Inductive twilio_reply : Type := Accepted | Refused.

(** [send_message]: the verdict, and the recipient handed to Twilio. *)
Definition send_message (tw : twilio_reply) (to body : string) : bool * string :=
  let to := if String.prefix "whatsapp:" to then to else "whatsapp:" +:+ to in
  match tw with
  | Accepted => (true, to)
  | Refused => (false, to)
  end.

(** ** main.py *)

(** The user identifier the webhook derives from the [From] field. *)
Definition webhook_user (from : string) : string := str_replace "whatsapp:" "" from.

(** The text the webhook wraps into its TwiML answer. *)
Definition twilio_webhook (cfg : Settings) (now later : datetime) (lk : link)
    (o1 o2 : setex_reply) (api : list OpenAIMessage -> completion)
    (from body : string) (st : SessionStorage) : turn :=
  process_message cfg now later lk o1 o2 api (webhook_user from) body st.

(** The [/send-message] endpoint: the number is formatted, then sent to. *)
Definition send_message_endpoint (tw : twilio_reply) (user_phone message : string)
  : bool * string :=
  send_message tw (format_phone_number user_phone) message.

(** ** Notions used by the further properties *)

(** [st'] runs in the mode of [st], and holds the Redis contents of [st] if
    that mode is fallback-only. *)
Definition same_mode (st st' : SessionStorage) : Prop :=
  use_redis st' = use_redis st
  /\ (use_redis st = false -> redis_db st' = redis_db st).

(** A timestamp field [_serialize_session] can convert: missing, or a
    datetime. *)
Definition convertible_field (k : string) (s : session_record) : Prop :=
  match s !! k with
  | None => True
  | Some (PDatetime _) => True
  | Some _ => False
  end.

(** Every character is a digit or a plus sign. *)
Fixpoint digits_and_plus (s : string) : bool :=
  match s with
  | EmptyString => true
  | String c rest => (is_digit c || Ascii.eqb c "+") && digits_and_plus rest
  end.


(** Redis holds no key under the session prefix. *)
Definition no_session_keys (db : redis_contents) : Prop :=
  forall key, String.prefix "whatsapp_session:" key = true -> db !! key = None.

(** A fallback tier like [mixed_store]'s with one more entry, whose
    [last_activity] is [None]. *)
Definition odd_store : SessionStorage :=
  set_fallback (<["odd" := <["last_activity" := PNone]> ∅]> (fallback_storage mixed_store))
    mixed_store.

(** A store whose Redis is reachable while the write of a session did not
    get through. *)
Definition unsynced_store : SessionStorage :=
  (save_session default_settings SetexRaises "+15550100" new_record connected_store).2.

(** The session after a turn that the adapter answered with [text]. *)
Definition after_turn (later : datetime) (session : ChatSession) (m text : string)
  : ChatSession :=
  {| user_phone := user_phone session;
     messages := messages session
                 ++ [{| role := "user"; content := m |};
                     {| role := "assistant"; content := text |}];
     created_at := created_at session;
     last_activity := later |}.

(** * Properties *)

(** ** The ISO format round trip *)

Module DatetimeFacts.
Import Datetime.

Lemma digit_val_char d : 0 <= d <= 9 -> digit_val (digit_char d) = Some d.
Proof.
  intros Hd.
  assert (d = 0 \/ d = 1 \/ d = 2 \/ d = 3 \/ d = 4 \/ d = 5 \/ d = 6 \/ d = 7
          \/ d = 8 \/ d = 9) as Hc by lia.
  repeat (destruct Hc as [-> | Hc]; [reflexivity |]). subst d. reflexivity.
Qed.

Lemma read_digits_digits k : forall j n acc rest,
  0 <= n < 10 ^ Z.of_nat k ->
  read_digits (k + j) acc (digits k n rest) = read_digits j (acc * 10 ^ Z.of_nat k + n) rest.
Proof.
  induction k as [| k IH]; intros j n acc rest Hn.
  - simpl in *. replace n with 0 by lia. f_equal. lia.
  - rewrite Nat2Z.inj_succ, Z.pow_succ_r in Hn by lia.
    cbn [digits]. replace (S k + j)%nat with (k + S j)%nat by lia.
    rewrite IH by (split; [apply Z.div_pos; lia | apply Z.div_lt_upper_bound; lia]).
    cbn [read_digits]. rewrite digit_val_char by (pose proof (Z.mod_pos_bound n 10); lia).
    f_equal. rewrite Nat2Z.inj_succ, Z.pow_succ_r by lia.
    pose proof (Z.div_mod n 10). lia.
Qed.

Lemma read_digits_exact k n rest :
  0 <= n < 10 ^ Z.of_nat k ->
  read_digits k 0 (digits k n rest) = Some (n, rest).
Proof.
  intros Hn. pose proof (read_digits_digits k 0 n 0 rest Hn) as H.
  rewrite Nat.add_0_r in H. rewrite H. reflexivity.
Qed.

Lemma expect_head c rest : expect c (String c rest) = Some rest.
Proof. unfold expect. by rewrite Ascii.eqb_refl. Qed.

Lemma valid_fields_bounds y mo d h mi s us :
  Is_true (valid_fields y mo d h mi s us) ->
  0 <= y < 10000 /\ 0 <= mo < 100 /\ 0 <= d < 100 /\ 0 <= h < 100 /\
  0 <= mi < 100 /\ 0 <= s < 100 /\ 0 <= us < 1000000.
Proof.
  unfold valid_fields. intros H. apply Is_true_true in H.
  repeat (apply andb_true_iff in H; destruct H as [H ?]).
  assert (days_in_month y mo <= 31).
  { unfold days_in_month. repeat case_match; lia. }
  lia.
Qed.

Lemma datetime_eq (a b : datetime) :
  year a = year b -> month a = month b -> day a = day b -> hour a = hour b ->
  minute a = minute b -> second a = second b -> microsecond a = microsecond b ->
  a = b.
Proof.
  destruct a, b; simpl. intros; subst. f_equal. apply proof_irrel.
Qed.

Lemma make_fields (t : datetime) :
  make (year t) (month t) (day t) (hour t) (minute t) (second t) (microsecond t) = Some t.
Proof.
  unfold make. destruct (decide _) as [ok | bad].
  - f_equal. by apply datetime_eq.
  - destruct bad. apply in_range.
Qed.

Lemma read_fraction_microsecond us :
  0 <= us < 1000000 ->
  read_fraction (if us =? 0 then EmptyString else String "." (digits 6 us EmptyString))
  = Some us.
Proof.
  intros Hus. destruct (us =? 0) eqn:E.
  - apply Z.eqb_eq in E. by subst.
  - unfold read_fraction. rewrite expect_head.
    rewrite (read_digits_exact 6) by (simpl; lia). reflexivity.
Qed.

Lemma fromisoformat_isoformat (t : datetime) : fromisoformat (isoformat t) = Some t.
Proof.
  pose proof (valid_fields_bounds _ _ _ _ _ _ _ (in_range t)) as (Hy & Hmo & Hd & Hh & Hmi & Hs & Hus).
  unfold fromisoformat, isoformat.
  rewrite (read_digits_exact 4) by (simpl; lia). cbn [mbind option_bind]. rewrite expect_head. cbn [mbind option_bind].
  rewrite (read_digits_exact 2) by (simpl; lia). cbn [mbind option_bind]. rewrite expect_head. cbn [mbind option_bind].
  rewrite (read_digits_exact 2) by (simpl; lia). cbn [mbind option_bind]. rewrite expect_head. cbn [mbind option_bind].
  rewrite (read_digits_exact 2) by (simpl; lia). cbn [mbind option_bind]. rewrite expect_head. cbn [mbind option_bind].
  rewrite (read_digits_exact 2) by (simpl; lia). cbn [mbind option_bind]. rewrite expect_head. cbn [mbind option_bind].
  rewrite (read_digits_exact 2) by (simpl; lia). cbn [mbind option_bind].
  rewrite read_fraction_microsecond by lia. cbn [mbind option_bind].
  apply make_fields.
Qed.
End DatetimeFacts.

(** ** Induction over nested values, and the JSON round trip *)

Section PyvalInduction.
Variable P : pyval -> Prop.
Hypothesis HNone : P PNone.
Hypothesis HBool : forall b, P (PBool b).
Hypothesis HInt : forall z, P (PInt z).
Hypothesis HStr : forall s, P (PStr s).
Hypothesis HDatetime : forall t, P (PDatetime t).
Hypothesis HList : forall l, Forall P l -> P (PList l).
Hypothesis HDict : forall m, map_Forall (fun _ => P) m -> P (PDict m).

Lemma pyval_size_elem x (l : list pyval) :
  x ∈ l -> (pyval_size x <= foldr (fun x n => pyval_size x + n) 0 l)%nat.
Proof. induction 1; simpl; lia. Qed.

Lemma pyval_size_item (k : string) x (items : list (string * pyval)) :
  (k, x) ∈ items ->
  (pyval_size x <= foldr (uncurry (fun _ x n => pyval_size x + n)) 0 items)%nat.
Proof.
  induction items as [| [k' y] items IH]; [by intros ?%elem_of_nil |].
  intros [[= <- <-] | Hin]%elem_of_cons; simpl; [lia |].
  specialize (IH Hin). simpl in IH. lia.
Qed.

Lemma pyval_nested_ind : forall v, P v.
Proof.
  intros v. remember (pyval_size v) as n eqn:Hn.
  revert v Hn. induction n as [n IH] using lt_wf_ind. intros v ->.
  destruct v as [| | | | | l | m]; auto.
  - apply HList, Forall_forall. intros x Hx.
    apply (IH (pyval_size x)); [| done].
    pose proof (pyval_size_elem x l Hx). simpl. lia.
  - apply HDict. intros k x Hk.
    apply (IH (pyval_size x)); [| done].
    apply elem_of_map_to_list in Hk.
    pose proof (pyval_size_item k x _ Hk) as Hle.
    cbn [pyval_size]. rewrite map_fold_foldr. lia.
Qed.
End PyvalInduction.

Lemma jsonable_items (items : list (string * pyval)) :
  foldr (uncurry (fun (_ : string) x ok => jsonable x && ok)) true items = true <->
  Forall (fun kx => jsonable kx.2 = true) items.
Proof.
  induction items as [| [k x] items IH]; simpl.
  - split; [constructor | done].
  - rewrite andb_true_iff, IH, Forall_cons. done.
Qed.

Lemma jsonable_dict (m : gmap string pyval) :
  jsonable (PDict m) = true <-> map_Forall (fun _ x => jsonable x = true) m.
Proof.
  cbn [jsonable]. rewrite map_fold_foldr, jsonable_items, map_Forall_to_list.
  apply Forall_proper; [| done]. by intros [??].
Qed.

Lemma jsonable_list (l : list pyval) :
  jsonable (PList l) = true <-> Forall (fun x => jsonable x = true) l.
Proof.
  cbn [jsonable]. rewrite forallb_forall, Forall_forall.
  setoid_rewrite <- list_elem_of_In. done.
Qed.

Lemma json_loads_to_json v : jsonable v = true -> json_loads (to_json v) = v.
Proof.
  induction v as [| | | | | l IH | m IH] using pyval_nested_ind; try done.
  - intros Hj%jsonable_list. cbn [to_json json_loads]. f_equal.
    rewrite <- list_fmap_compose.
    induction l as [| x l IHl]; [done |].
    inversion IH; inversion Hj; subst. cbn. f_equal; auto.
  - intros Hj%jsonable_dict. cbn [to_json json_loads]. f_equal.
    rewrite <- map_fmap_compose. apply map_eq. intros k.
    rewrite lookup_fmap. destruct (m !! k) as [x |] eqn:Hk; [| done].
    cbn. f_equal. apply (IH k x Hk), (Hj k x Hk).
Qed.

Lemma loadable_items (items : list (string * json)) :
  foldr (uncurry (fun (_ : string) x ok => loadable x && ok)) true items = true <->
  Forall (fun kx => loadable kx.2 = true) items.
Proof.
  induction items as [| [k x] items IH]; simpl.
  - split; [constructor | done].
  - rewrite andb_true_iff, IH, Forall_cons. done.
Qed.

Lemma loadable_dict (m : gmap string json) :
  loadable (JObj m) = true <-> map_Forall (fun _ x => loadable x = true) m.
Proof.
  cbn [loadable]. rewrite map_fold_foldr, loadable_items, map_Forall_to_list.
  apply Forall_proper; [| done]. by intros [??].
Qed.

(** What [json.dumps] has written, [json.loads] accepts. *)
Lemma loadable_to_json v : jsonable v = true -> loadable (to_json v) = true.
Proof.
  induction v as [| | | | | l IH | m IH] using pyval_nested_ind; try done.
  - intros Hj%jsonable_list. cbn [to_json loadable].
    induction l as [| x l IHl]; [done |].
    inversion IH; inversion Hj; subst. cbn. apply andb_true_iff. auto.
  - intros Hj%jsonable_dict. cbn [to_json]. apply loadable_dict.
    intros k y. rewrite lookup_fmap.
    destruct (m !! k) as [x |] eqn:Hk; [| done].
    intros [= <-]. apply (IH k x Hk), (Hj k x Hk).
Qed.

Lemma loads_dumps_dict (d : session_record) (j : gmap string json) :
  json_dumps_dict d = Return j -> json_loads_dict j = Return d.
Proof.
  unfold json_dumps_dict, json_loads_dict. destruct (jsonable (PDict d)) eqn:Hj; [| done].
  intros [= <-].
  change (JObj (to_json <$> d)) with (to_json (PDict d)).
  rewrite (loadable_to_json _ Hj). f_equal. apply jsonable_dict in Hj.
  rewrite <- map_fmap_compose. apply map_eq. intros k.
  rewrite lookup_fmap. destruct (d !! k) as [x |] eqn:Hk; [| done].
  cbn. f_equal. apply json_loads_to_json, (Hj k x Hk).
Qed.

(** ** Serialisation of a session record *)

Lemma isoformat_field_inv k d d' :
  isoformat_field k d = Return d' -> fromisoformat_field k d' = Return d.
Proof.
  unfold isoformat_field, fromisoformat_field.
  destruct (d !! k) as [v |] eqn:Hk.
  - destruct v; try done. intros [= <-].
    rewrite lookup_insert_eq, DatetimeFacts.fromisoformat_isoformat.
    by rewrite insert_insert_eq, insert_id.
  - intros [= <-]. by rewrite Hk.
Qed.

Lemma fromisoformat_field_skip k1 k2 d1 d2 :
  k1 ≠ k2 ->
  isoformat_field k2 d1 = Return d2 ->
  fromisoformat_field k1 d2 = fromisoformat_field k1 d1 ≫= isoformat_field k2.
Proof.
  intros Hne. unfold isoformat_field at 1.
  destruct (d1 !! k2) as [v |] eqn:Hk2.
  - destruct v; try done. intros [= <-].
    unfold fromisoformat_field. rewrite lookup_insert_ne by done.
    destruct (d1 !! k1) as [w |] eqn:Hk1.
    + destruct w; try done. destruct (Datetime.fromisoformat s); [| done].
      cbn. unfold isoformat_field. rewrite lookup_insert_ne, Hk2 by done.
      f_equal. by apply insert_insert_ne.
    + cbn. unfold isoformat_field. by rewrite Hk2.
  - intros [= <-]. unfold fromisoformat_field.
    destruct (d1 !! k1) as [w |] eqn:Hk1.
    + destruct w; try done. destruct (Datetime.fromisoformat s); [| done].
      cbn. unfold isoformat_field. by rewrite lookup_insert_ne, Hk2 by done.
    + cbn. unfold isoformat_field. by rewrite Hk2.
Qed.

Lemma isoformat_field_same_lookup k d d' :
  d !! k = d' !! k -> isoformat_field k d = Raise -> isoformat_field k d' = Raise.
Proof.
  unfold isoformat_field. intros <-. destruct (d !! k) as [[] |]; done.
Qed.

Lemma isoformat_field_lookup_ne k k' d d' :
  k ≠ k' -> isoformat_field k d = Return d' -> d' !! k' = d !! k'.
Proof.
  unfold isoformat_field. intros Hne.
  destruct (d !! k) as [[] |]; try done; intros [= <-]; [| done].
  by rewrite lookup_insert_ne.
Qed.

(** The record written to the durable tier decodes to the record saved. *)
Lemma deserialize_serialize (session_data : session_record) (text : gmap string json) :
  _serialize_session session_data = Return text ->
  _deserialize_session text = Return session_data.
Proof.
  unfold _serialize_session, _deserialize_session.
  destruct (isoformat_field "created_at" session_data) as [d1 |] eqn:H1; [| done].
  cbn. destruct (isoformat_field "last_activity" d1) as [d2 |] eqn:H2; [| done].
  cbn. intros Hloads%loads_dumps_dict. rewrite Hloads. cbn.
  rewrite (fromisoformat_field_skip "created_at" "last_activity" d1 d2) by done.
  rewrite (isoformat_field_inv _ _ _ H1). cbn.
  destruct (isoformat_field "last_activity" session_data) as [d3 |] eqn:H3.
  - cbn. by apply isoformat_field_inv.
  - apply (isoformat_field_same_lookup _ _ d1) in H3; [congruence |].
    symmetry. by apply (isoformat_field_lookup_ne "created_at").
Qed.

(** ** The two-tier store *)

Section Store.
Context (cfg : Settings).
Implicit Types (st : SessionStorage) (u : string) (s : session_record).

Lemma save_session_fallback o u s st :
  fallback_storage (save_session cfg o u s st).2 = <[u := s]> (fallback_storage st).
Proof.
  unfold save_session. destruct (use_redis st); [| done].
  by destruct (write_through_redis _ _ _ _ _).
Qed.

Lemma save_session_use_redis o u s st :
  use_redis (save_session cfg o u s st).2 = use_redis st.
Proof.
  unfold save_session. destruct (use_redis st) eqn:E; [| done].
  by destruct (write_through_redis _ _ _ _ _).
Qed.

(** SETEX is the only command of [save_session]: the server holds the new
    text when it ran and answered, and what it held before otherwise. *)
Lemma save_session_redis o u s st :
  redis_db (save_session cfg o u s st).2 =
    if use_redis st then
      match _serialize_session s, o with
      | Return text, SetexOk => <[_get_redis_key u := text]> (redis_db st)
      | _, _ => redis_db st
      end
    else redis_db st.
Proof.
  unfold save_session, write_through_redis. destruct (use_redis st); [| done].
  destruct (_serialize_session s) as [text |]; [| done]. by destruct o.
Qed.

Lemma get_session_fallback_only lk u st :
  use_redis st = false -> get_session lk u st = fallback_storage st !! u.
Proof. unfold get_session. by intros ->. Qed.

Lemma get_session_down u st : get_session Down u st = fallback_storage st !! u.
Proof. unfold get_session. by destruct (use_redis st). Qed.

Lemma get_session_miss lk u st :
  redis_db st !! _get_redis_key u = None -> get_session lk u st = fallback_storage st !! u.
Proof.
  unfold get_session, read_through_redis. intros Hmiss.
  destruct (use_redis st); [| done]. destruct lk; [| done]. cbn. by rewrite Hmiss.
Qed.

Lemma get_session_hit u st text s :
  use_redis st = true ->
  redis_db st !! _get_redis_key u = Some text ->
  _deserialize_session text = Return s ->
  get_session Up u st = Some s.
Proof.
  unfold get_session, read_through_redis. intros -> Hhit Hs. cbn.
  by rewrite Hhit, Hs.
Qed.

(** A read that follows a write of [s] answers [s] unless the write did
    not reach the server and the server answers with what it held. *)
Lemma get_after_save o lk u s st :
  use_redis st = false \/ lk = Down \/ redis_db st !! _get_redis_key u = None
  \/ (o = SetexOk /\ exists text, _serialize_session s = Return text) ->
  get_session lk u (save_session cfg o u s st).2 = Some s.
Proof.
  intros Hcase.
  assert (fallback_storage (save_session cfg o u s st).2 !! u = Some s) as Hfb.
  { by rewrite save_session_fallback, lookup_insert_eq. }
  destruct (use_redis st) eqn:Huse; cycle 1.
  { rewrite get_session_fallback_only; [done | by rewrite save_session_use_redis]. }
  destruct lk; [| by rewrite get_session_down].
  destruct (_serialize_session s) as [text |] eqn:Hser; cycle 1.
  { destruct Hcase as [? | [? | [Hmiss | (_ & ? & ?)]]]; try done.
    rewrite get_session_miss; [done |].
    by rewrite save_session_redis, Huse, Hser. }
  destruct o.
  - apply (get_session_hit _ _ text).
    + by rewrite save_session_use_redis.
    + by rewrite save_session_redis, Huse, Hser, lookup_insert_eq.
    + by apply deserialize_serialize.
  - destruct Hcase as [? | [? | [Hmiss | (? & _)]]]; try done.
    rewrite get_session_miss; [done |].
    by rewrite save_session_redis, Huse, Hser.
  - destruct Hcase as [? | [? | [Hmiss | (? & _)]]]; try done.
    rewrite get_session_miss; [done |].
    by rewrite save_session_redis, Huse, Hser.
Qed.

Lemma get_session_after_save_not_absent o lk u s st :
  get_session lk u (save_session cfg o u s st).2 <> None.
Proof.
  assert (fallback_storage (save_session cfg o u s st).2 !! u = Some s) as Hfb.
  { by rewrite save_session_fallback, lookup_insert_eq. }
  unfold get_session, read_through_redis.
  destruct (use_redis _); [| by rewrite Hfb].
  destruct lk; cbn; [| by rewrite Hfb].
  destruct (redis_db _ !! _) as [text |]; cbn; [| by rewrite Hfb].
  destruct (_deserialize_session text); cbn; [done | by rewrite Hfb].
Qed.

End Store.

(** ** Records built by the orchestrator *)

Lemma jsonable_message_dict (msg : OpenAIMessage) : jsonable (message_dict msg) = true.
Proof.
  unfold message_dict. apply jsonable_dict.
  repeat (apply map_Forall_insert_2; [done |]). apply map_Forall_empty.
Qed.

Lemma serialize_session_data_of (session : ChatSession) :
  exists text, _serialize_session (session_data_of session) = Return text.
Proof.
  unfold _serialize_session, session_data_of, isoformat_field.
  rewrite !lookup_insert_ne, lookup_insert_eq by done. cbn.
  rewrite !lookup_insert_ne, lookup_insert_eq by done. cbn.
  unfold json_dumps_dict.
  match goal with |- context [jsonable ?v] => assert (jsonable v = true) as -> end; [| by eexists].
  apply jsonable_dict. intros k v.
  repeat (rewrite lookup_insert; case_decide; [intros [= <-] | ]); try done.
  apply jsonable_list, Forall_fmap, Forall_forall. intros msg _. apply jsonable_message_dict.
Qed.

(** ** Claims about the store *)

(** C7.  Round-trip fidelity: when the record serialises and the durable
    tier takes the write and answers the read, [get_session] straight after
    [save_session] returns the record saved; the text written, timestamps
    in ISO format included, decodes to an equal record. *)
Theorem save_then_get_round_trip (cfg : Settings) (u : string) (s : session_record)
    (text : gmap string json) (st : SessionStorage) :
  _serialize_session s = Return text ->
  get_session Up u (save_session cfg SetexOk u s st).2 = Some s
  /\ _deserialize_session text = Return s.
Proof.
  intros Hser. split.
  - apply get_after_save. do 3 right. eauto.
  - by apply deserialize_serialize.
Qed.

Lemma save_then_get_round_trip_witness :
  _serialize_session new_record = Return new_record_text
  /\ get_session Up "+15550100"
       (save_session default_settings SetexOk "+15550100" new_record connected_store).2
     = Some new_record
  /\ _deserialize_session new_record_text = Return new_record.
Proof.
  split; [vm_compute; reflexivity |].
  apply (save_then_get_round_trip default_settings "+15550100" new_record new_record_text).
  vm_compute. reflexivity.
Defined.

(** C1, as amended.  After [save_session u s] whose durable write fails
    (fallback-only mode since start-up, serialisation error, or a SETEX that
    raises or is refused), [get_session u] is never absent, and it returns
    [s] whenever the read is not answered from an older durable record: the
    store runs in fallback-only mode, the durable read fails too, or the
    durable tier holds no record for [u]. *)
Theorem get_after_failed_durable_write (cfg : Settings) (o : setex_reply) (lk : link)
    (u : string) (s : session_record) (st : SessionStorage) :
  use_redis st = false \/ _serialize_session s = Raise \/ o <> SetexOk ->
  get_session lk u (save_session cfg o u s st).2 <> None
  /\ (use_redis st = false \/ lk = Down \/ redis_db st !! _get_redis_key u = None ->
      get_session lk u (save_session cfg o u s st).2 = Some s).
Proof.
  intros _. split.
  - apply get_session_after_save_not_absent.
  - intros Hread. apply get_after_save. tauto.
Qed.

Lemma get_after_failed_durable_write_witness :
  get_session Up "+15550100"
    (save_session default_settings SetexRaises "+15550100" new_record connected_store).2
  = Some new_record.
Proof.
  apply (get_after_failed_durable_write default_settings SetexRaises Up "+15550100"
           new_record connected_store).
  - right; right; discriminate.
  - right; right. reflexivity.
Defined.

(** C1 as stated fails: a record is written to both tiers, a second write
    for the same user does not reach Redis (SETEX raises), and the read that
    follows is answered by Redis with the first record. *)
Lemma stale_read_after_failed_write :
  let st := (save_session default_settings SetexOk "+15550100" old_record connected_store).2 in
  get_session Up "+15550100"
    (save_session default_settings SetexRaises "+15550100" new_record st).2 = Some old_record
  /\ old_record <> new_record.
Proof.
  split; [vm_compute; reflexivity |].
  intros Heq. apply (f_equal (lookup "last_activity")) in Heq.
  vm_compute in Heq. discriminate.
Qed.

(** The verdict of [save_session]: the fallback copy is stored in every
    case, and the answer is false on one path only, the [else] branch taken
    when SETEX answers with a falsy value without raising. *)
Lemma save_session_verdict (cfg : Settings) (o : setex_reply) (u : string)
    (s : session_record) (st : SessionStorage) :
  fallback_storage (save_session cfg o u s st).2 !! u = Some s
  /\ ((save_session cfg o u s st).1 = false <->
      use_redis st = true /\ (exists text, _serialize_session s = Return text)
      /\ o = SetexFalsy).
Proof.
  split; [by rewrite save_session_fallback, lookup_insert_eq |].
  unfold save_session, write_through_redis.
  destruct (use_redis st); [| by split; [| intros (? & _)]].
  destruct (_serialize_session s) as [text |]; cbn;
    [| by split; [| intros (_ & [? ?] & _)]].
  destruct o; cbn; split; try done; try (by intros (_ & _ & ?)); eauto.
Qed.

(** C3.  With the Redis client the store builds, whose [setex] returns true
    or raises, [save_session] reports success in every case: in
    fallback-only mode, when the durable write succeeds, and when the write
    attempt fails in any way (the record does not serialise, the connection
    is lost or times out, the server answers with an error).  The fallback
    copy is stored in each of these cases. *)
Theorem save_session_reports_success (cfg : Settings) (o : setex_reply) (u : string)
    (s : session_record) (st : SessionStorage) :
  redis_py_reply o = true ->
  (save_session cfg o u s st).1 = true
  /\ fallback_storage (save_session cfg o u s st).2 !! u = Some s.
Proof.
  intros Hclient.
  destruct (save_session_verdict cfg o u s st) as [Hcopy Hfalse]. split; [| done].
  destruct (save_session cfg o u s st).1 eqn:Hverdict; [done |].
  destruct (proj1 Hfalse eq_refl) as (_ & _ & ->). discriminate.
Qed.

Lemma save_session_reports_success_witness :
  (save_session default_settings SetexRaises "+15550100" new_record connected_store).1 = true
  /\ fallback_storage
       (save_session default_settings SetexRaises "+15550100" new_record connected_store).2
     !! "+15550100" = Some new_record.
Proof.
  apply (save_session_reports_success default_settings SetexRaises "+15550100" new_record
           connected_store).
  reflexivity.
Defined.

Lemma delete_session_verdict (lk : link) (u : string) (st : SessionStorage) :
  (delete_session lk u st).1 = true <-> use_redis st = false \/ lk = Up.
Proof.
  unfold delete_session. destruct (use_redis st), lk; cbn; split; auto.
  by intros [? | ?].
Qed.

Lemma get_after_delete (lk lk' : link) (u : string) (st : SessionStorage) :
  (delete_session lk u st).1 = true -> get_session lk' u (delete_session lk u st).2 = None.
Proof.
  unfold delete_session, get_session, read_through_redis.
  destruct (use_redis st) eqn:Huse, lk; cbn; rewrite ?Huse; try discriminate; intros _;
    destruct lk'; cbn; rewrite ?lookup_delete_eq; cbn; by rewrite ?lookup_delete_eq.
Qed.

(** C2 on the code.  No record for the user exists in either tier, and
    [delete_session] answers true; after a save, the first delete answers
    true, the read that follows is absent, and the second delete answers
    true again.  [clear_session], documented as "False if not found",
    passes the answer on. *)
Theorem delete_session_never_reports_not_found :
  (delete_session Up "+15550100" connected_store).1 = true
  /\ (clear_session Up "+15550100" connected_store).1 = true
  /\ let st := (save_session default_settings SetexOk "+15550100" new_record connected_store).2 in
     let first := delete_session Up "+15550100" st in
     let second := delete_session Up "+15550100" first.2 in
     first.1 = true /\ get_session Up "+15550100" first.2 = None /\ second.1 = true.
Proof. repeat split; vm_compute; reflexivity. Qed.

(** ** The expiry sweep *)

Lemma sub_timestamp (a b : datetime) :
  Datetime.sub a b = Datetime.timestamp a - Datetime.timestamp b.
Proof. unfold Datetime.sub, Datetime.timestamp. lia. Qed.

(** The test of the source, [now - last_activity > timedelta(seconds=ttl)],
    is the rule of the specification. *)
Lemma expiry_test_precedes (cfg : Settings) (now last : datetime) :
  (Datetime.sub now last >? Datetime.timedelta_seconds (session_ttl cfg))
  = precedes_cutoff cfg now last.
Proof.
  unfold precedes_cutoff, Datetime.timedelta_seconds. rewrite sub_timestamp.
  destruct (Z.gtb_spec (Datetime.timestamp now - Datetime.timestamp last)
              (session_ttl cfg * 1000000)); symmetry;
    [apply Z.ltb_lt | apply Z.ltb_ge]; lia.
Qed.

(** The value the source subtracts is the instant the stored value stands
    for. *)
Lemma as_datetime_instant (v : pyval) :
  as_datetime v = match instant_of v with Some last => Return last | None => Raise end.
Proof. by destruct v. Qed.

Lemma timedelta_ttl_in_range (cfg : Settings) :
  ttl_in_range cfg ->
  Datetime.timedelta (session_ttl cfg) = Some (Datetime.timedelta_seconds (session_ttl cfg)).
Proof.
  unfold ttl_in_range, Datetime.timedelta. intros [Hlow Hhigh].
  assert (-999999999 <= session_ttl cfg / 86400).
  { apply Z.div_le_lower_bound; lia. }
  assert (session_ttl cfg / 86400 < 1000000000).
  { apply Z.div_lt_upper_bound; lia. }
  replace (-999999999 <=? session_ttl cfg / 86400) with true by (symmetry; apply Z.leb_le; lia).
  replace (session_ttl cfg / 86400 <=? 999999999) with true by (symmetry; apply Z.leb_le; lia).
  done.
Qed.

Lemma timedelta_length (n ttl : Z) :
  Datetime.timedelta n = Some ttl -> ttl = Datetime.timedelta_seconds n.
Proof. unfold Datetime.timedelta. case_match; [by intros [= <-] | done]. Qed.

Lemma is_expired_stale (cfg : Settings) (now : datetime) (s : session_record) (b : bool) :
  is_expired cfg now s = Return b -> b = stale cfg now s.
Proof.
  unfold is_expired, stale. destruct (s !! "last_activity") as [v |]; [| by intros [= <-]].
  cbn. rewrite as_datetime_instant. destruct (instant_of v) as [last |]; [| done].
  destruct (Datetime.timedelta (session_ttl cfg)) as [ttl |] eqn:Httl; [| done].
  apply timedelta_length in Httl as ->.
  intros [= <-]. apply expiry_test_precedes.
Qed.

Lemma is_expired_no_last_activity (cfg : Settings) (now : datetime) (s : session_record) :
  s !! "last_activity" = None -> is_expired cfg now s = Return false.
Proof. unfold is_expired. by intros ->. Qed.

Lemma is_expired_readable (cfg : Settings) (now : datetime) (s : session_record) :
  ttl_in_range cfg ->
  (forall v, s !! "last_activity" = Some v -> is_Some (instant_of v)) ->
  is_expired cfg now s = Return (stale cfg now s).
Proof.
  intros Httl Hread. unfold is_expired, stale.
  destruct (s !! "last_activity") as [v |]; [| done].
  cbn. rewrite as_datetime_instant. destruct (Hread v eq_refl) as [last ->].
  by rewrite (timedelta_ttl_in_range cfg Httl), expiry_test_precedes.
Qed.

(** The scan either raises, or lists the keys of the stale entries in the
    order they are visited. *)
Lemma scan_expired_listed (cfg : Settings) (now : datetime)
    (items : list (string * session_record)) (ks : list string) :
  scan_expired cfg now items = Return ks ->
  ks = (filter (fun kv => stale cfg now kv.2 = true) items).*1.
Proof.
  revert ks. induction items as [| [u s] items IH]; intros ks; cbn [scan_expired].
  - by intros [= <-].
  - destruct (is_expired cfg now s) as [b |] eqn:Hb; [| done].
    destruct (scan_expired cfg now items) as [ks' |]; [| done].
    intros [= <-]. apply is_expired_stale in Hb. subst b.
    rewrite filter_cons. cbn. rewrite (IH ks' eq_refl).
    destruct (stale cfg now s); by case_decide.
Qed.

Lemma scan_expired_readable (cfg : Settings) (now : datetime)
    (items : list (string * session_record)) :
  Forall (fun kv => is_expired cfg now kv.2 = Return (stale cfg now kv.2)) items ->
  exists ks, scan_expired cfg now items = Return ks.
Proof.
  induction 1 as [| [u s] items Hs _ [ks IH]]; cbn [scan_expired]; [by eexists |].
  cbn in Hs. rewrite Hs, IH. by eexists.
Qed.

Lemma remove_expired_unfold (ks : list string) (n : Z) (fb : gmap string session_record) :
  foldl (fun acc user_phone => (acc.1 + 1, delete user_phone acc.2)) (n, fb) ks
  = (n + Z.of_nat (length ks), foldl (fun m user_phone => delete user_phone m) fb ks).
Proof.
  revert n fb. induction ks as [| k ks IH]; intros n fb; cbn.
  - f_equal. lia.
  - rewrite IH. f_equal. lia.
Qed.

Lemma lookup_foldl_delete (ks : list string) (fb : gmap string session_record) (u : string) :
  foldl (fun m user_phone => delete user_phone m) fb ks !! u
  = if decide (u ∈ ks) then None else fb !! u.
Proof.
  revert fb. induction ks as [| k ks IH]; intros fb; cbn.
  - by rewrite decide_False by apply not_elem_of_nil.
  - rewrite IH. destruct (decide (u ∈ ks)) as [Hin | Hout].
    + by rewrite decide_True by (apply elem_of_cons; auto).
    + destruct (decide (u = k)) as [-> | Hne].
      * rewrite lookup_delete_eq. by rewrite decide_True by (apply elem_of_cons; auto).
      * rewrite lookup_delete_ne by done.
        rewrite decide_False; [done |]. by intros [? | ?]%elem_of_cons.
Qed.

Lemma stale_keys_listed (cfg : Settings) (now : datetime)
    (fb : gmap string session_record) (u : string) :
  u ∈ (filter (fun kv => stale cfg now kv.2 = true) (map_to_list fb)).*1
  <-> exists s, fb !! u = Some s /\ stale cfg now s = true.
Proof.
  rewrite list_elem_of_fmap. split.
  - intros ([u' s] & -> & [Hst Hin%elem_of_map_to_list]%list_elem_of_filter). eauto.
  - intros (s & Hu & Hst). exists (u, s). split; [done |].
    apply list_elem_of_filter. split; [done | by apply elem_of_map_to_list].
Qed.

Lemma size_filter_map_to_list (P : string * session_record -> Prop)
    `{!forall kv, Decision (P kv)} (fb : gmap string session_record) :
  size (filter P fb) = length (filter P (map_to_list fb)).
Proof.
  rewrite map_filter_alt, <- length_map_to_list.
  apply Permutation_length, map_to_list_to_map.
  eapply sublist_NoDup; [apply (NoDup_fst_map_to_list fb) |].
  apply fmap_sublist, sublist_filter.
Qed.

Lemma stale_split_length (cfg : Settings) (now : datetime)
    (items : list (string * session_record)) :
  (length (filter (fun kv => stale cfg now kv.2 = true) items)
   + length (filter (fun kv => stale cfg now kv.2 = false) items) = length items)%nat.
Proof.
  induction items as [| [u s] items IH]; [done |].
  rewrite !filter_cons. cbn. destruct (stale cfg now s); repeat case_decide; try done;
    cbn; lia.
Qed.

Lemma stale_split_size (cfg : Settings) (now : datetime) (fb : gmap string session_record) :
  (size (filter (fun kv => stale cfg now kv.2 = true) fb)
   + size (filter (fun kv => stale cfg now kv.2 = false) fb) = size fb)%nat.
Proof.
  rewrite !size_filter_map_to_list, <- length_map_to_list. apply stale_split_length.
Qed.

(** What the sweep does once the scan has run to its end. *)
Lemma sweep_fallback_ran (cfg : Settings) (now : datetime) (st : SessionStorage)
    (ks : list string) :
  scan_expired cfg now (map_to_list (fallback_storage st)) = Return ks ->
  sweep_fallback cfg now st =
    Return (Z.of_nat (size (filter (fun kv => stale cfg now kv.2 = true) (fallback_storage st))),
            set_fallback (filter (fun kv => stale cfg now kv.2 = false) (fallback_storage st)) st).
Proof.
  intros Hscan. unfold sweep_fallback. rewrite Hscan.
  apply scan_expired_listed in Hscan. unfold remove_expired.
  rewrite remove_expired_unfold. cbn [fst snd]. f_equal. f_equal.
  - rewrite Hscan, length_fmap, size_filter_map_to_list. lia.
  - f_equal. apply map_eq. intros u. rewrite lookup_foldl_delete.
    destruct (fallback_storage st !! u) as [s |] eqn:Hu.
    + destruct (stale cfg now s) eqn:Hst.
      * rewrite decide_True by (rewrite Hscan; apply stale_keys_listed; eauto).
        symmetry. apply map_lookup_filter_None. right. intros s' Hs'. cbn. congruence.
      * rewrite decide_False.
        { symmetry. by apply map_lookup_filter_Some. }
        rewrite Hscan. intros (s' & Hs' & Hst')%stale_keys_listed. congruence.
    + assert (filter (fun kv => stale cfg now kv.2 = false) (fallback_storage st) !! u = None)
        as -> by (apply map_lookup_filter_None; by left).
      by case_decide.
Qed.

Lemma cleanup_ran (cfg : Settings) (now : datetime) (st : SessionStorage) (ks : list string) :
  scan_expired cfg now (map_to_list (fallback_storage st)) = Return ks ->
  cleanup_expired_sessions cfg now st =
    (Z.of_nat (size (filter (fun kv => stale cfg now kv.2 = true) (fallback_storage st))),
     set_fallback (filter (fun kv => stale cfg now kv.2 = false) (fallback_storage st)) st).
Proof.
  intros Hscan. unfold cleanup_expired_sessions.
  rewrite (sweep_fallback_ran cfg now st ks Hscan). by destruct (use_redis st).
Qed.

(** When the scan raises, nothing has been removed yet and the operation
    answers zero. *)
Lemma cleanup_aborted (cfg : Settings) (now : datetime) (st : SessionStorage) :
  scan_expired cfg now (map_to_list (fallback_storage st)) = Raise ->
  cleanup_expired_sessions cfg now st = (0, st).
Proof.
  intros Hscan. unfold cleanup_expired_sessions, sweep_fallback. rewrite Hscan.
  by destruct (use_redis st).
Qed.

Lemma scan_runs_when_readable (cfg : Settings) (now : datetime)
    (fb : gmap string session_record) :
  ttl_in_range cfg ->
  timestamps_readable fb -> exists ks, scan_expired cfg now (map_to_list fb) = Return ks.
Proof.
  intros Httl Hread. apply scan_expired_readable, Forall_forall.
  intros [u s] Hus%elem_of_map_to_list. cbn.
  apply is_expired_readable; [done |]. intros v Hv. by apply (Hread u s v).
Qed.

(** C6.  Whatever mixture of fresh and stale entries the fallback tier
    holds (each [last_activity] present being a datetime or an ISO text, and
    the configured TTL a duration [timedelta] can hold),
    [cleanup_expired_sessions] leaves in it exactly the entries that are not
    stale, unchanged; an entry is stale when its [last_activity] precedes
    [now - ttl], which is what the strict test [now - last_activity > ttl]
    of the source answers.  The durable tier and the mode flag are
    untouched, and the number returned is the number of stale entries, all
    of them removed. *)
Theorem cleanup_removes_exactly_stale (cfg : Settings) (now : datetime) (st : SessionStorage) :
  ttl_in_range cfg ->
  timestamps_readable (fallback_storage st) ->
  let r := cleanup_expired_sessions cfg now st in
  fallback_storage r.2 = filter (fun kv => stale cfg now kv.2 = false) (fallback_storage st)
  /\ redis_db r.2 = redis_db st
  /\ use_redis r.2 = use_redis st
  /\ r.1 = Z.of_nat (size (filter (fun kv => stale cfg now kv.2 = true) (fallback_storage st)))
  /\ r.1 = Z.of_nat (size (fallback_storage st)) - Z.of_nat (size (fallback_storage r.2))
  /\ (forall last, is_expired cfg now (<["last_activity" := PDatetime last]> ∅)
                   = Return (precedes_cutoff cfg now last)).
Proof.
  intros Httl Hread. destruct (scan_runs_when_readable cfg now _ Httl Hread) as [ks Hscan].
  cbn zeta. rewrite (cleanup_ran cfg now st ks Hscan). cbn [fst snd].
  repeat split; try done.
  - cbn. pose proof (stale_split_size cfg now (fallback_storage st)). lia.
  - intros last. rewrite is_expired_readable; [| done |].
    + unfold stale. by rewrite lookup_insert_eq.
    + intros v. rewrite lookup_insert_eq. intros [= <-]. by eexists.
Qed.

(** C10.  An entry whose record has no [last_activity] stays in the
    fallback tier, unchanged, through every sweep, whatever the TTL and the
    clock; the number returned is the number of entries that left the tier,
    so the entry is not counted. *)
Theorem entry_without_last_activity_survives (cfg : Settings) (now : datetime)
    (u : string) (s : session_record) (st : SessionStorage) :
  fallback_storage st !! u = Some s ->
  s !! "last_activity" = None ->
  let r := cleanup_expired_sessions cfg now st in
  fallback_storage r.2 !! u = Some s
  /\ r.1 = Z.of_nat (size (fallback_storage st)) - Z.of_nat (size (fallback_storage r.2)).
Proof.
  intros Hu Hla. cbn zeta.
  destruct (scan_expired cfg now (map_to_list (fallback_storage st))) as [ks |] eqn:Hscan.
  - rewrite (cleanup_ran cfg now st ks Hscan). cbn [fst snd]. split.
    + cbn. apply map_lookup_filter_Some. split; [done |]. cbn.
      unfold stale. by rewrite Hla.
    + cbn. pose proof (stale_split_size cfg now (fallback_storage st)). lia.
  - rewrite (cleanup_aborted cfg now st Hscan). cbn. split; [done | lia].
Qed.

(** ** The orchestrator *)

Lemma get_session_ext (lk : link) (u : string) (st st' : SessionStorage) :
  use_redis st = use_redis st' ->
  redis_db st !! _get_redis_key u = redis_db st' !! _get_redis_key u ->
  fallback_storage st !! u = fallback_storage st' !! u ->
  get_session lk u st = get_session lk u st'.
Proof.
  unfold get_session, read_through_redis. intros -> Hdb ->.
  destruct (use_redis st'), lk; cbn; by rewrite ?Hdb.
Qed.

Lemma cleanup_tiers (cfg : Settings) (now : datetime) (st : SessionStorage) :
  redis_db (_cleanup_expired_sessions cfg now st) = redis_db st
  /\ use_redis (_cleanup_expired_sessions cfg now st) = use_redis st.
Proof.
  unfold _cleanup_expired_sessions.
  destruct (scan_expired cfg now (map_to_list (fallback_storage st))) as [ks |] eqn:Hscan.
  - by rewrite (cleanup_ran cfg now st ks Hscan).
  - by rewrite (cleanup_aborted cfg now st Hscan).
Qed.

Lemma cleanup_absent (cfg : Settings) (now : datetime) (u : string) (st : SessionStorage) :
  fallback_storage st !! u = None ->
  fallback_storage (_cleanup_expired_sessions cfg now st) !! u = None.
Proof.
  intros Hu. unfold _cleanup_expired_sessions.
  destruct (scan_expired cfg now (map_to_list (fallback_storage st))) as [ks |] eqn:Hscan.
  - rewrite (cleanup_ran cfg now st ks Hscan). cbn.
    apply map_lookup_filter_None. by left.
  - by rewrite (cleanup_aborted cfg now st Hscan).
Qed.

Lemma cleanup_keeps_fresh (cfg : Settings) (now : datetime) (u : string)
    (s : session_record) (st : SessionStorage) :
  fallback_storage st !! u = Some s ->
  stale cfg now s = false ->
  fallback_storage (_cleanup_expired_sessions cfg now st) !! u = Some s.
Proof.
  intros Hu Hfresh. unfold _cleanup_expired_sessions.
  destruct (scan_expired cfg now (map_to_list (fallback_storage st))) as [ks |] eqn:Hscan.
  - rewrite (cleanup_ran cfg now st ks Hscan). cbn.
    by apply map_lookup_filter_Some.
  - by rewrite (cleanup_aborted cfg now st Hscan).
Qed.

Lemma messages_of_message_dicts (ms : list OpenAIMessage) :
  messages_of_list (message_dict <$> ms) = Return ms.
Proof.
  induction ms as [| [r c] ms IH]; [done |].
  cbn [fmap list_fmap messages_of_list]. rewrite IH. reflexivity.
Qed.

Lemma session_data_of_lookup (session : ChatSession) :
  session_data_of session !! "user_phone" = Some (PStr (user_phone session))
  /\ session_data_of session !! "messages" = Some (PList (message_dict <$> messages session))
  /\ session_data_of session !! "created_at" = Some (PDatetime (created_at session))
  /\ session_data_of session !! "last_activity" = Some (PDatetime (last_activity session)).
Proof.
  unfold session_data_of.
  rewrite lookup_insert_eq, !lookup_insert_ne, lookup_insert_eq by done.
  rewrite !lookup_insert_ne, lookup_insert_eq by done.
  by rewrite !lookup_insert_ne, lookup_insert_eq by done.
Qed.

Lemma chat_session_of_session_data (session : ChatSession) :
  chat_session_of (session_data_of session) = Return session.
Proof.
  destruct (session_data_of_lookup session) as (Hu & Hm & Hc & Ha).
  unfold chat_session_of, getitem. rewrite Hu, Hm, Hc, Ha. cbn.
  rewrite messages_of_message_dicts. cbn. by destruct session.
Qed.

Lemma truthy_session_data (session : ChatSession) :
  truthy_dict (Some (session_data_of session)) = Some (session_data_of session).
Proof.
  unfold truthy_dict. case_decide as Hsize; [| done].
  apply map_size_empty_iff in Hsize.
  apply (f_equal (lookup "user_phone")) in Hsize.
  by rewrite (proj1 (session_data_of_lookup session)), lookup_empty in Hsize.
Qed.

Lemma stale_session_data (cfg : Settings) (now : datetime) (session : ChatSession) :
  stale cfg now (session_data_of session) = precedes_cutoff cfg now (last_activity session).
Proof.
  unfold stale. by rewrite (proj2 (proj2 (proj2 (session_data_of_lookup session)))).
Qed.

(** What [get_or_create_session] does for a user neither tier knows. *)
Lemma get_or_create_session_new (cfg : Settings) (now : datetime) (lk : link)
    (o : setex_reply) (u : string) (st : SessionStorage) :
  redis_db st !! _get_redis_key u = None ->
  fallback_storage st !! u = None ->
  get_or_create_session cfg now lk o u st =
    (Return (new_session now u),
     (save_session cfg o u (session_data_of (new_session now u))
        (_cleanup_expired_sessions cfg now st)).2).
Proof.
  intros Hdb Hfb. unfold get_or_create_session.
  destruct (cleanup_tiers cfg now st) as [Hdb' _].
  rewrite get_session_miss by (by rewrite Hdb').
  by rewrite cleanup_absent.
Qed.

(** What [get_or_create_session] does for a user whose session the lookup
    finds. *)
Lemma get_or_create_session_found (cfg : Settings) (now : datetime) (lk : link)
    (o : setex_reply) (u : string) (st : SessionStorage) (session : ChatSession) :
  get_session lk u (_cleanup_expired_sessions cfg now st) = Some (session_data_of session) ->
  get_or_create_session cfg now lk o u st =
    (Return session, _cleanup_expired_sessions cfg now st).
Proof.
  intros Hget. unfold get_or_create_session.
  by rewrite Hget, truthy_session_data, chat_session_of_session_data.
Qed.

(** C5.  For a user identifier that neither tier holds a record of,
    [get_or_create_session] returns a session whose messages are exactly the
    system message; a [get_session] that follows returns the record of that
    session, and a second [get_or_create_session], made before the session's
    TTL has run out, returns that same session: no second system message. *)
Theorem get_or_create_session_idempotent (cfg : Settings) (now later : datetime)
    (lk lk1 lk2 : link) (o o2 : setex_reply) (u : string) (st : SessionStorage) :
  redis_db st !! _get_redis_key u = None ->
  fallback_storage st !! u = None ->
  Datetime.sub later now <= Datetime.timedelta_seconds (session_ttl cfg) ->
  let first := get_or_create_session cfg now lk o u st in
  exists session,
    first.1 = Return session
    /\ messages session = [create_system_message]
    /\ role create_system_message = "system"
    /\ get_session lk1 u first.2 = Some (session_data_of session)
    /\ (get_or_create_session cfg later lk2 o2 u first.2).1 = Return session.
Proof.
  intros Hdb Hfb Hsoon. cbn zeta.
  rewrite (get_or_create_session_new cfg now lk o u st Hdb Hfb). cbn [fst snd].
  set (session := new_session now u).
  set (st0 := _cleanup_expired_sessions cfg now st).
  set (st1 := (save_session cfg o u (session_data_of session) st0).2).
  destruct (cleanup_tiers cfg now st) as [Hdb0 Huse0]. fold st0 in Hdb0, Huse0.
  assert (forall lk', get_session lk' u st1 = Some (session_data_of session)) as Hget.
  { intros lk'. apply get_after_save. right; right; left. by rewrite Hdb0. }
  exists session. repeat split; try done.
  rewrite (get_or_create_session_found cfg later lk2 o2 u st1 session); [done |].
  destruct (cleanup_tiers cfg later st1) as [Hdb1 Huse1].
  rewrite <- (Hget lk2). apply get_session_ext; [done | by rewrite Hdb1 |].
  assert (fallback_storage st1 !! u = Some (session_data_of session)) as Hfb1.
  { unfold st1. by rewrite save_session_fallback, lookup_insert_eq. }
  rewrite Hfb1. apply cleanup_keeps_fresh; [done |].
  rewrite stale_session_data, <- expiry_test_precedes. cbn.
  rewrite Z.gtb_ltb. by apply Z.ltb_ge.
Qed.

Lemma get_or_create_session_idempotent_witness :
  exists session,
    (get_or_create_session default_settings noon Down SetexRaises "+15550100"
       connected_store).1 = Return session
    /\ messages session = [create_system_message]
    /\ role create_system_message = "system"
    /\ get_session Up "+15550100"
         (get_or_create_session default_settings noon Down SetexRaises "+15550100"
            connected_store).2 = Some (session_data_of session)
    /\ (get_or_create_session default_settings one_pm Up SetexOk "+15550100"
          (get_or_create_session default_settings noon Down SetexRaises "+15550100"
             connected_store).2).1 = Return session.
Proof.
  apply (get_or_create_session_idempotent default_settings noon one_pm Down Up Up
           SetexRaises SetexOk "+15550100" connected_store).
  - reflexivity.
  - reflexivity.
  - vm_compute. discriminate.
Defined.




(** C4, as amended.  When the model adapter fails (an exception, no choices,
    no content or an empty text), [process_message] returns the fixed
    fallback apology and writes nothing: the store is left as
    [get_or_create_session] left it, so the persisted session holds neither
    the user message nor a new assistant message. *)
Theorem failed_turn_persists_nothing (cfg : Settings) (now later : datetime) (lk : link)
    (o1 o2 : setex_reply) (api : list OpenAIMessage -> completion)
    (u m : string) (st st1 : SessionStorage) (session : ChatSession) :
  get_or_create_session cfg now lk o1 u st = (Return session, st1) ->
  (forall window, adapter_fails (api window)) ->
  reply (process_message cfg now later lk o1 o2 api u m st) = fallback_response
  /\ store (process_message cfg now later lk o1 o2 api u m st) = st1.
Proof.
  intros Hload Hfail. unfold process_message. rewrite Hload.
  set (window := get_conversation_history _ _).
  assert (truthy_str (generate_response api window) = None) as ->; [| done].
  unfold generate_response. specialize (Hfail window).
  destruct (api window) as [[text |] | | | | |]; try done.
  cbn in Hfail. subst text. reflexivity.
Qed.

Lemma failed_turn_persists_nothing_witness :
  reply (process_message default_settings one_pm two_pm Up SetexOk SetexOk
           (fun _ => RateLimitError) "+15550100" "one more" busy_store) = fallback_response
  /\ store (process_message default_settings one_pm two_pm Up SetexOk SetexOk
              (fun _ => RateLimitError) "+15550100" "one more" busy_store) = busy_store.
Proof.
  apply (failed_turn_persists_nothing default_settings one_pm two_pm Up SetexOk SetexOk
           (fun _ => RateLimitError) "+15550100" "one more" busy_store busy_store
           (sample_session noon noon fifteen_messages)).
  - vm_compute. reflexivity.
  - intros window. exact I.
Defined.

(** C4 as stated fails: the adapter answers with a rate-limit error for a
    new user; the apology is returned, and the session persisted for the
    user, in both tiers, holds the system message only, not the user message. *)
Lemma failed_turn_loses_user_message :
  let t := process_message default_settings noon one_pm Up SetexOk SetexOk
             (fun _ => RateLimitError) "B" "hi" connected_store in
  reply t = fallback_response
  /\ presented t = Some [create_system_message; {| role := "user"; content := "hi" |}]
  /\ (get_session Up "B" (store t) ≫= lookup "messages")
     = Some (PList [message_dict create_system_message])
  /\ (get_session Down "B" (store t) ≫= lookup "messages")
     = Some (PList [message_dict create_system_message]).
Proof. repeat split; vm_compute; reflexivity. Qed.

(** [is_active] is computed from the last activity and the literal 86400,
    whatever the settings say. *)
Lemma build_session_info_is_active (now : datetime) (s : session_record) (info : session_info) :
  build_session_info now s = Return info ->
  exists last, s !! "last_activity" = Some (PDatetime last)
    /\ is_active info = (Datetime.sub now last <? Datetime.timedelta_seconds 86400).
Proof.
  unfold build_session_info, getitem.
  destruct (s !! "user_phone") as [vu |]; [cbn | done].
  destruct (s !! "messages") as [vm |]; [cbn | done].
  destruct (py_len vm) as [n |]; [cbn | done].
  destruct (s !! "created_at") as [vc |]; [cbn | done].
  destruct (datetime_field vc) as [c |]; [cbn | done].
  destruct (s !! "last_activity") as [va |]; [cbn | done].
  destruct va; try done. cbn. intros [= <-]. eauto.
Qed.

(** C9 on the code.  The configured TTL is one hour and the session was last
    active two hours before the query: [get_session_info] reports it active,
    the predicate [now - last_activity < session_ttl] says it is not. *)
Theorem is_active_ignores_configured_ttl :
  let cfg := {| session_ttl := 3600 |} in
  let st := (save_session cfg SetexOk "+15550100" old_record connected_store).2 in
  (is_active <$> get_session_info two_pm Up "+15550100" st) = Some true
  /\ (Datetime.sub two_pm noon <? Datetime.timedelta_seconds (session_ttl cfg)) = false.
Proof. split; vm_compute; reflexivity. Qed.

(** ** Stores the orchestrator builds *)

(** The records [_save_session_to_storage] writes carry datetimes, so the
    fallback tier of a store only the orchestrator has written to is
    readable by the sweep. *)
Lemma timestamps_readable_empty : timestamps_readable ∅.
Proof. intros u s v Hu. by rewrite lookup_empty in Hu. Qed.

Lemma timestamps_readable_insert (fb : gmap string session_record) (u : string)
    (session : ChatSession) :
  timestamps_readable fb -> timestamps_readable (<[u := session_data_of session]> fb).
Proof.
  intros Hfb u' s v Hu' Hv. destruct (decide (u = u')) as [<- | Hne].
  - rewrite lookup_insert_eq in Hu'. injection Hu' as <-.
    rewrite (proj2 (proj2 (proj2 (session_data_of_lookup session)))) in Hv.
    injection Hv as <-. by eexists.
  - rewrite lookup_insert_ne in Hu' by done. by apply (Hfb u' s v).
Qed.

Lemma timestamps_readable_subseteq (fb fb' : gmap string session_record) :
  fb' ⊆ fb -> timestamps_readable fb -> timestamps_readable fb'.
Proof.
  intros Hsub Hfb u s v Hu Hv. apply (Hfb u s v); [| done].
  by eapply lookup_weaken.
Qed.

(** An entry whose [last_activity] is neither a string nor a datetime makes
    the scan raise: the sweep removes nothing and answers zero. *)
Lemma scan_expired_raises (cfg : Settings) (now : datetime)
    (items : list (string * session_record)) (u : string) (s : session_record) :
  (u, s) ∈ items -> is_expired cfg now s = Raise -> scan_expired cfg now items = Raise.
Proof.
  induction items as [| [u' s'] items IH]; [by intros ?%elem_of_nil |].
  intros [[= <- <-] | Hin]%elem_of_cons Hraise; cbn [scan_expired].
  - by rewrite Hraise.
  - rewrite (IH Hin Hraise). by destruct (is_expired cfg now s').
Qed.

Lemma cleanup_gives_up (cfg : Settings) (now : datetime) (st : SessionStorage)
    (u : string) (s : session_record) (v : pyval) :
  fallback_storage st !! u = Some s ->
  s !! "last_activity" = Some v ->
  match v with PStr _ | PDatetime _ => False | _ => True end ->
  cleanup_expired_sessions cfg now st = (0, st).
Proof.
  intros Hu Hv Hkind. apply cleanup_aborted.
  apply (scan_expired_raises cfg now _ u s); [by apply elem_of_map_to_list |].
  unfold is_expired. rewrite Hv. by destruct v.
Qed.

(** A TTL beyond the range of a timedelta makes the scan raise at the first
    entry that carries a [last_activity]: the sweep removes nothing and
    answers zero. *)
Lemma cleanup_ttl_out_of_range (cfg : Settings) (now : datetime) (st : SessionStorage)
    (u : string) (s : session_record) (v : pyval) :
  Datetime.timedelta (session_ttl cfg) = None ->
  fallback_storage st !! u = Some s ->
  s !! "last_activity" = Some v ->
  cleanup_expired_sessions cfg now st = (0, st).
Proof.
  intros Httl Hu Hv. apply cleanup_aborted.
  apply (scan_expired_raises cfg now _ u s); [by apply elem_of_map_to_list |].
  unfold is_expired. rewrite Hv, Httl. by destruct (as_datetime v).
Qed.

(** ** Scenarios of the specification *)

(** Redis does not answer at start-up: the record saved is served from the
    fallback tier. *)
Example offline_save_then_get :
  get_session Up "+15550100"
    (save_session default_settings SetexOk "+15550100" new_record offline_store).2
  = Some new_record.
Proof. apply get_after_save. by left. Qed.

(** TTL of two hours; a session created at noon survives the sweep at one
    o'clock and is removed by the sweep a month later. *)
Example sweep_scenario :
  let cfg := {| session_ttl := 7200 |} in
  let st := (get_or_create_session cfg noon Down SetexOk "A" offline_store).2 in
  (cleanup_expired_sessions cfg one_pm st).1 = 0
  /\ (cleanup_expired_sessions cfg next_month st).1 = 1
  /\ get_session Up "A" (cleanup_expired_sessions cfg next_month st).2 = None.
Proof. repeat split; vm_compute; reflexivity. Qed.

(** With the default settings the flag of [get_session_info] agrees with the
    configured TTL. *)
Example is_active_default_settings (now last : datetime) :
  (Datetime.sub now last <? Datetime.timedelta_seconds 86400)
  = (Datetime.sub now last <? Datetime.timedelta_seconds (session_ttl default_settings)).
Proof. reflexivity. Qed.

Lemma entry_without_last_activity_survives_witness :
  let r := cleanup_expired_sessions default_settings next_month mixed_store in
  fallback_storage r.2 !! "bare" = Some (<["user_phone" := PStr "bare"]> ∅)
  /\ r.1 = Z.of_nat (size (fallback_storage mixed_store)) - Z.of_nat (size (fallback_storage r.2)).
Proof.
  apply (entry_without_last_activity_survives default_settings next_month "bare"
           (<["user_phone" := PStr "bare"]> ∅) mixed_store).
  - vm_compute. reflexivity.
  - vm_compute. reflexivity.
Defined.

Lemma mixed_store_readable : timestamps_readable (fallback_storage mixed_store).
Proof.
  unfold mixed_store. cbn [fallback_storage].
  apply timestamps_readable_insert, timestamps_readable_insert.
  intros u s v Hu Hv. destruct (decide (u = "bare")) as [-> | Hne].
  - rewrite lookup_insert_eq in Hu. injection Hu as <-.
    by rewrite lookup_insert_ne, lookup_empty in Hv.
  - by rewrite lookup_insert_ne, lookup_empty in Hu.
Defined.

Lemma default_ttl_in_range : ttl_in_range default_settings.
Proof. unfold ttl_in_range. cbn. lia. Defined.

Lemma cleanup_removes_exactly_stale_witness :
  let r := cleanup_expired_sessions default_settings next_month mixed_store in
  fallback_storage r.2 = delete "old" (fallback_storage mixed_store)
  /\ redis_db r.2 = redis_db mixed_store
  /\ use_redis r.2 = use_redis mixed_store
  /\ r.1 = 1.
Proof.
  destruct (cleanup_removes_exactly_stale default_settings next_month mixed_store
              default_ttl_in_range mixed_store_readable) as (Hfb & Hdb & Huse & Hcount & _).
  cbn zeta. rewrite Hfb, Hdb, Huse, Hcount.
  repeat split; vm_compute; reflexivity.
Defined.

(** The sweep on the mixed store: the stale entry goes, the fresh one and
    the one without [last_activity] stay, one entry is counted. *)
Example sweep_mixed_store :
  let r := cleanup_expired_sessions default_settings next_month mixed_store in
  fallback_storage r.2 !! "old" = None
  /\ fallback_storage r.2 !! "new" = fallback_storage mixed_store !! "new"
  /\ fallback_storage r.2 !! "bare" = fallback_storage mixed_store !! "bare"
  /\ r.1 = 1.
Proof. repeat split; vm_compute; reflexivity. Qed.

(** * Further properties of the code *)

(** ** One user's operations and the other users *)

Lemma redis_key_inj (u u' : string) : _get_redis_key u = _get_redis_key u' -> u = u'.
Proof. unfold _get_redis_key. intros H. cbn in H. by simplify_eq. Qed.

Lemma delete_session_tiers (lk : link) (u : string) (st : SessionStorage) :
  use_redis (delete_session lk u st).2 = use_redis st
  /\ fallback_storage (delete_session lk u st).2 = delete u (fallback_storage st)
  /\ redis_db (delete_session lk u st).2 =
       (if use_redis st then match lk with
                             | Up => delete (_get_redis_key u) (redis_db st)
                             | Down => redis_db st
                             end
        else redis_db st).
Proof. unfold delete_session. by destruct (use_redis st) eqn:Huse, lk; cbn; rewrite ?Huse. Qed.

(** X1.  Saving or deleting the session of one user changes what
    [get_session] answers for no other user, in either tier and whatever
    the Redis commands do. *)
Theorem other_users_untouched (cfg : Settings) (o : setex_reply) (lk lk' : link)
    (u u' : string) (s : session_record) (st : SessionStorage) :
  u <> u' ->
  get_session lk' u' (save_session cfg o u s st).2 = get_session lk' u' st
  /\ get_session lk' u' (delete_session lk u st).2 = get_session lk' u' st.
Proof.
  intros Hne.
  assert (_get_redis_key u <> _get_redis_key u') as Hkey
    by (intros ?%redis_key_inj; done).
  split; apply get_session_ext.
  - apply save_session_use_redis.
  - rewrite save_session_redis. destruct (use_redis st); [| done].
    destruct (_serialize_session s); [| done]. destruct o; try done.
    by rewrite lookup_insert_ne.
  - by rewrite save_session_fallback, lookup_insert_ne.
  - apply delete_session_tiers.
  - destruct (delete_session_tiers lk u st) as (_ & _ & ->).
    destruct (use_redis st), lk; try done. by rewrite lookup_delete_ne.
  - destruct (delete_session_tiers lk u st) as (_ & -> & _).
    by rewrite lookup_delete_ne.
Qed.

Lemma other_users_untouched_witness :
  get_session Up "+15550100"
    (save_session default_settings SetexOk "+15550199" new_record busy_store).2
  = get_session Up "+15550100" busy_store
  /\ get_session Up "+15550100" (delete_session Up "+15550199" busy_store).2
     = get_session Up "+15550100" busy_store.
Proof.
  apply (other_users_untouched default_settings SetexOk Up Up "+15550199" "+15550100").
  discriminate.
Defined.

(** X2.  Once [delete_session] has answered true, [get_session] for that
    user is absent, whether Redis answers the read or not. *)
Theorem deleted_session_is_absent (lk lk' : link) (u : string) (st : SessionStorage) :
  (delete_session lk u st).1 = true ->
  get_session lk' u (delete_session lk u st).2 = None.
Proof. apply get_after_delete. Qed.

Lemma deleted_session_is_absent_witness :
  get_session Down "+15550100" (delete_session Up "+15550100" busy_store).2 = None.
Proof.
  apply (deleted_session_is_absent Up Down "+15550100" busy_store).
  vm_compute. reflexivity.
Defined.

(** X3.  When the DEL command raises, [delete_session] answers false with
    the fallback copy already removed and the durable record still in place:
    the next read that Redis answers returns the session again. *)
Theorem failed_delete_keeps_durable_copy (u : string) (st : SessionStorage)
    (text : gmap string json) (s : session_record) :
  use_redis st = true ->
  redis_db st !! _get_redis_key u = Some text ->
  _deserialize_session text = Return s ->
  (delete_session Down u st).1 = false
  /\ fallback_storage (delete_session Down u st).2 !! u = None
  /\ get_session Up u (delete_session Down u st).2 = Some s.
Proof.
  intros Huse Hdb Htext.
  destruct (delete_session_tiers Down u st) as (Huse' & Hfb & Hdb').
  rewrite Huse in Hdb'. repeat split.
  - unfold delete_session. by rewrite Huse.
  - by rewrite Hfb, lookup_delete_eq.
  - apply (get_session_hit u _ text); [congruence | by rewrite Hdb' | done].
Qed.

Lemma failed_delete_keeps_durable_copy_witness :
  (delete_session Down "+15550100" busy_store).1 = false
  /\ fallback_storage (delete_session Down "+15550100" busy_store).2 !! "+15550100" = None
  /\ get_session Up "+15550100" (delete_session Down "+15550100" busy_store).2
     = Some (session_data_of (sample_session noon noon fifteen_messages)).
Proof.
  destruct (serialize_session_data_of (sample_session noon noon fifteen_messages))
    as [text Htext].
  apply (failed_delete_keeps_durable_copy "+15550100" busy_store text).
  - reflexivity.
  - unfold busy_store. rewrite save_session_redis. cbn [use_redis connected_store _initialize_redis].
    by rewrite Htext, lookup_insert_eq.
  - by apply deserialize_serialize.
Defined.

(** ** The mode of the store *)

Lemma same_mode_refl (st : SessionStorage) : same_mode st st.
Proof. by split. Qed.

Lemma same_mode_trans (st1 st2 st3 : SessionStorage) :
  same_mode st1 st2 -> same_mode st2 st3 -> same_mode st1 st3.
Proof.
  intros [Hu12 Hd12] [Hu23 Hd23]. split; [congruence |].
  intros Hoff. rewrite Hd23 by congruence. by apply Hd12.
Qed.

Lemma save_session_same_mode (cfg : Settings) (o : setex_reply) (u : string)
    (s : session_record) (st : SessionStorage) :
  same_mode st (save_session cfg o u s st).2.
Proof.
  split; [apply save_session_use_redis |].
  intros Hoff. by rewrite save_session_redis, Hoff.
Qed.

Lemma delete_session_same_mode (lk : link) (u : string) (st : SessionStorage) :
  same_mode st (delete_session lk u st).2.
Proof.
  destruct (delete_session_tiers lk u st) as (Huse & _ & Hdb).
  split; [done |]. intros Hoff. by rewrite Hdb, Hoff.
Qed.

Lemma cleanup_same_mode (cfg : Settings) (now : datetime) (st : SessionStorage) :
  same_mode st (_cleanup_expired_sessions cfg now st).
Proof. destruct (cleanup_tiers cfg now st) as [Hdb Huse]. by split. Qed.

Lemma get_or_create_session_same_mode (cfg : Settings) (now : datetime) (lk : link)
    (o : setex_reply) (u : string) (st : SessionStorage) :
  same_mode st (get_or_create_session cfg now lk o u st).2.
Proof.
  unfold get_or_create_session.
  destruct (truthy_dict _); cbn [snd]; [apply cleanup_same_mode |].
  eapply same_mode_trans; [apply cleanup_same_mode | apply save_session_same_mode].
Qed.

Lemma process_message_same_mode (cfg : Settings) (now later : datetime) (lk : link)
    (o1 o2 : setex_reply) (api : list OpenAIMessage -> completion)
    (u m : string) (st : SessionStorage) :
  same_mode st (store (process_message cfg now later lk o1 o2 api u m st)).
Proof.
  unfold process_message.
  pose proof (get_or_create_session_same_mode cfg now lk o1 u st) as Hmode.
  destruct (get_or_create_session cfg now lk o1 u st) as [[session |] st1]; cbn [snd] in Hmode;
    [| done].
  destruct (truthy_str _); cbn [store]; [| done].
  eapply same_mode_trans; [exact Hmode | apply save_session_same_mode].
Qed.

(** X4.  The mode chosen by the start-up ping is final: no operation turns
    a fallback-only store back to Redis or a Redis-backed store to
    fallback-only, whatever the Redis commands answer in between. *)
Theorem mode_is_fixed_at_start_up (cfg : Settings) (now later : datetime) (lk : link)
    (o1 o2 : setex_reply) (api : list OpenAIMessage -> completion)
    (u m : string) (s : session_record) (st : SessionStorage) :
  use_redis (save_session cfg o1 u s st).2 = use_redis st
  /\ use_redis (delete_session lk u st).2 = use_redis st
  /\ use_redis (cleanup_expired_sessions cfg now st).2 = use_redis st
  /\ use_redis (get_or_create_session cfg now lk o1 u st).2 = use_redis st
  /\ use_redis (store (process_message cfg now later lk o1 o2 api u m st)) = use_redis st.
Proof.
  repeat split.
  - apply save_session_same_mode.
  - apply delete_session_same_mode.
  - apply (cleanup_same_mode cfg now st).
  - apply get_or_create_session_same_mode.
  - apply process_message_same_mode.
Qed.

(** X5.  A store that started in fallback-only mode never touches the
    durable tier: saving, deleting, sweeping and processing a message leave
    the contents of Redis as they were, and reads are served by the fallback
    dict alone. *)
Theorem fallback_only_leaves_redis_alone (cfg : Settings) (now later : datetime)
    (lk : link) (o1 o2 : setex_reply) (api : list OpenAIMessage -> completion)
    (u m : string) (s : session_record) (st : SessionStorage) :
  use_redis st = false ->
  redis_db (save_session cfg o1 u s st).2 = redis_db st
  /\ redis_db (delete_session lk u st).2 = redis_db st
  /\ redis_db (cleanup_expired_sessions cfg now st).2 = redis_db st
  /\ redis_db (store (process_message cfg now later lk o1 o2 api u m st)) = redis_db st
  /\ get_session lk u st = fallback_storage st !! u.
Proof.
  intros Hoff. repeat split.
  - by apply save_session_same_mode.
  - by apply delete_session_same_mode.
  - by apply (cleanup_same_mode cfg now st).
  - by apply process_message_same_mode.
  - by apply get_session_fallback_only.
Qed.

Lemma fallback_only_leaves_redis_alone_witness :
  redis_db (save_session default_settings SetexOk "+15550100" new_record offline_store).2
    = redis_db offline_store
  /\ redis_db (delete_session Up "+15550100" offline_store).2 = redis_db offline_store
  /\ redis_db (cleanup_expired_sessions default_settings noon offline_store).2
     = redis_db offline_store
  /\ redis_db (store (process_message default_settings noon one_pm Up SetexOk SetexOk
                        (fun _ => Choices (Some "fine")) "+15550100" "hello" offline_store))
     = redis_db offline_store
  /\ get_session Up "+15550100" offline_store = fallback_storage offline_store !! "+15550100".
Proof.
  apply (fallback_only_leaves_redis_alone default_settings noon one_pm Up SetexOk SetexOk
           (fun _ => Choices (Some "fine")) "+15550100" "hello" new_record offline_store).
  reflexivity.
Defined.

(** ** More on the sweep *)

Lemma scan_expired_all_read (cfg : Settings) (now : datetime)
    (items : list (string * session_record)) (ks : list string) :
  scan_expired cfg now items = Return ks ->
  Forall (fun kv => is_expired cfg now kv.2 = Return (stale cfg now kv.2)) items.
Proof.
  revert ks. induction items as [| [u s] items IH]; intros ks; [constructor |].
  cbn [scan_expired].
  destruct (is_expired cfg now s) as [b |] eqn:Hb; [| done].
  destruct (scan_expired cfg now items) as [ks' |]; [| done]. intros _.
  constructor; [| by apply (IH ks')].
  cbn. rewrite Hb. f_equal. by apply is_expired_stale.
Qed.

Lemma scan_runs_on_part (cfg : Settings) (now : datetime)
    (fb fb' : gmap string session_record) (ks : list string) :
  fb' ⊆ fb ->
  scan_expired cfg now (map_to_list fb) = Return ks ->
  exists ks', scan_expired cfg now (map_to_list fb') = Return ks'.
Proof.
  intros Hsub Hscan. apply scan_expired_all_read in Hscan.
  apply scan_expired_readable, Forall_forall. intros [u s] Hus%elem_of_map_to_list.
  rewrite Forall_forall in Hscan. apply (Hscan (u, s)).
  apply elem_of_map_to_list. by eapply lookup_weaken.
Qed.

(** X6.  The sweep is idempotent: run again at the same instant, it removes
    nothing more, answers zero and leaves the store as the first run left
    it. *)
Theorem second_sweep_removes_nothing (cfg : Settings) (now : datetime) (st : SessionStorage) :
  cleanup_expired_sessions cfg now (cleanup_expired_sessions cfg now st).2
  = (0, (cleanup_expired_sessions cfg now st).2).
Proof.
  destruct (scan_expired cfg now (map_to_list (fallback_storage st))) as [ks |] eqn:Hscan.
  - rewrite (cleanup_ran cfg now st ks Hscan). cbn [snd].
    set (fresh := filter (fun kv => stale cfg now kv.2 = false) (fallback_storage st)).
    destruct (scan_runs_on_part cfg now (fallback_storage st) fresh ks) as [ks' Hscan'];
      [apply map_filter_subseteq | done |].
    rewrite (cleanup_ran cfg now (set_fallback fresh st) ks' Hscan').
    cbn [fallback_storage set_fallback].
    assert (filter (fun kv => stale cfg now kv.2 = true) fresh = ∅) as ->.
    { apply map_empty. intros u. apply map_lookup_filter_None. right.
      intros s [_ Hfresh]%map_lookup_filter_Some. cbn in *. congruence. }
    assert (filter (fun kv => stale cfg now kv.2 = false) fresh = fresh) as ->.
    { apply map_eq. intros u. destruct (fresh !! u) as [s |] eqn:Hu.
      - apply map_lookup_filter_Some. split; [done |].
        by apply map_lookup_filter_Some in Hu as [_ ?].
      - apply map_lookup_filter_None. by left. }
    by rewrite map_size_empty.
  - rewrite (cleanup_aborted cfg now st Hscan). cbn [snd].
    by rewrite (cleanup_aborted cfg now st Hscan).
Qed.

(** X7.  One entry whose [last_activity] is neither a string nor a datetime
    switches the sweep off: the scan raises on it, every entry stays in the
    fallback tier, stale ones included, and the answer is zero. *)
Theorem untyped_entry_switches_sweep_off (cfg : Settings) (now : datetime)
    (st : SessionStorage) (u : string) (s : session_record) (v : pyval) :
  fallback_storage st !! u = Some s ->
  s !! "last_activity" = Some v ->
  match v with PStr _ | PDatetime _ => False | _ => True end ->
  cleanup_expired_sessions cfg now st = (0, st).
Proof. apply cleanup_gives_up. Qed.

(** ** Which records reach the durable tier *)

Lemma isoformat_field_convertible (k : string) (d : session_record) :
  convertible_field k d <-> exists d', isoformat_field k d = Return d'.
Proof.
  unfold convertible_field, isoformat_field.
  destruct (d !! k) as [[] |]; split; try done; eauto; by intros [? ?].
Qed.

Lemma json_dumps_dict_ok (d : session_record) :
  (exists text, json_dumps_dict d = Return text)
  <-> forall k v, d !! k = Some v -> jsonable v = true.
Proof.
  unfold json_dumps_dict. rewrite <- (jsonable_dict d).
  destruct (jsonable (PDict d)); split; try done; eauto. by intros [? ?].
Qed.

(** X8.  [_serialize_session] returns a text only for a record whose
    [created_at] and [last_activity], when present, are datetimes and whose
    other values hold, at any depth, no datetime and no [int] of more than
    4300 digits; on a record that breaks one of these it raises, and
    [save_session] writes nothing to Redis. *)
Theorem serialize_returns_only_if (s : session_record) (text : gmap string json) :
  _serialize_session s = Return text ->
  convertible_field "created_at" s
  /\ convertible_field "last_activity" s
  /\ (forall k v, k <> "created_at" -> k <> "last_activity" ->
                  s !! k = Some v -> jsonable v = true).
Proof.
  unfold _serialize_session. intros Hser.
  destruct (isoformat_field "created_at" s) as [d1 |] eqn:H1; [| done].
  cbn in Hser. destruct (isoformat_field "last_activity" d1) as [d2 |] eqn:H2; [| done].
  cbn in Hser. repeat split.
  - apply isoformat_field_convertible. eauto.
  - assert (convertible_field "last_activity" d1) as Hc
      by (apply isoformat_field_convertible; eauto).
    unfold convertible_field in *.
    by rewrite <- (isoformat_field_lookup_ne "created_at" "last_activity" s d1).
  - intros k v Hk1 Hk2 Hv.
    assert (exists t, json_dumps_dict d2 = Return t) as Hd by eauto.
    rewrite json_dumps_dict_ok in Hd. apply (Hd k).
    rewrite (isoformat_field_lookup_ne "last_activity" k d1 d2) by done.
    by rewrite (isoformat_field_lookup_ne "created_at" k s d1).
Qed.

Lemma serialize_returns_only_if_witness :
  convertible_field "created_at" new_record
  /\ convertible_field "last_activity" new_record
  /\ (forall k v, k <> "created_at" -> k <> "last_activity" ->
                  new_record !! k = Some v -> jsonable v = true).
Proof.
  apply (serialize_returns_only_if new_record new_record_text).
  vm_compute. reflexivity.
Defined.

(** ** Strings *)

Lemma prefix_app (p u : string) : String.prefix p (p +:+ u) = true.
Proof.
  induction p as [| c p IH]; [by destruct u |].
  change (String c p +:+ u) with (String c (p +:+ u)). cbn [String.prefix].
  by destruct (ascii_dec c c).
Qed.

Lemma replace_scan_pass (old new w u : string) :
  replace_scan old new (String.length w) (w +:+ u) = replace_scan old new 0 u.
Proof. induction w as [| c w IH]; [done | exact IH]. Qed.

(** An occurrence at the head is replaced and the scan goes on behind it. *)
Lemma str_replace_head (c : ascii) (old' new u : string) :
  str_replace (String c old') new (String c old' +:+ u)
  = new +:+ str_replace (String c old') new u.
Proof.
  unfold str_replace.
  change (String c old' +:+ u) with (String c (old' +:+ u)) at 1.
  cbn [replace_scan].
  change (String c (old' +:+ u)) with (String c old' +:+ u).
  rewrite prefix_app.
  replace (String.length (String c old') - 1)%nat with (String.length old')
    by (cbn [String.length]; lia).
  by rewrite replace_scan_pass.
Qed.

(** A text of digits and plus signs holds no occurrence of the prefix. *)
Lemma str_replace_digits_and_plus (s : string) :
  digits_and_plus s = true -> str_replace "whatsapp:" "" s = s.
Proof.
  unfold str_replace. induction s as [| c s IH]; [done |].
  cbn [digits_and_plus]. intros [Hc Hs]%andb_true_iff.
  cbn [replace_scan String.prefix].
  destruct (ascii_dec "w" c) as [<- | Hne]; [vm_compute in Hc; discriminate |].
  by rewrite (IH Hs).
Qed.

Lemma keep_digits_plus_clean (s : string) : digits_and_plus (keep_digits_plus s) = true.
Proof.
  induction s as [| c s IH]; [done |]. cbn.
  destruct (is_digit c || Ascii.eqb c "+") eqn:Hc; [| done].
  cbn. by rewrite Hc, IH.
Qed.

Lemma keep_digits_plus_id (s : string) :
  digits_and_plus s = true -> keep_digits_plus s = s.
Proof.
  induction s as [| c s IH]; [done |]. cbn.
  intros [Hc Hs]%andb_true_iff. by rewrite Hc, (IH Hs).
Qed.

(** ** Listing the sessions *)

Lemma collect_session_other (lk_get : string -> link) (st : SessionStorage)
    (acc : gmap string session_record) (key u : string) :
  str_replace "whatsapp_session:" "" key <> u ->
  collect_session lk_get st acc key !! u = acc !! u.
Proof.
  intros Hne. unfold collect_session.
  destruct (truthy_dict _); [by rewrite lookup_insert_ne | done].
Qed.

Lemma foldl_collect_unlisted (lk_get : string -> link) (st : SessionStorage)
    (keys : list string) (acc : gmap string session_record) (u : string) :
  (forall key, key ∈ keys -> str_replace "whatsapp_session:" "" key <> u) ->
  foldl (collect_session lk_get st) acc keys !! u = acc !! u.
Proof.
  revert acc. induction keys as [| key keys IH]; intros acc Hkeys; [done |].
  cbn [foldl]. rewrite IH by (intros k Hk; apply Hkeys, elem_of_cons; auto).
  apply collect_session_other, Hkeys, elem_of_cons. auto.
Qed.

Lemma foldl_collect_listed (lk_get : string -> link) (st : SessionStorage)
    (keys : list string) (acc : gmap string session_record) (u : string)
    (s : session_record) :
  (forall key, key ∈ keys -> str_replace "whatsapp_session:" "" key = u ->
               truthy_dict (get_session (lk_get key) u st) = Some s) ->
  acc !! u = Some s \/ (exists key, key ∈ keys /\ str_replace "whatsapp_session:" "" key = u) ->
  foldl (collect_session lk_get st) acc keys !! u = Some s.
Proof.
  revert acc. induction keys as [| key keys IH]; intros acc Hkeys Hin.
  - destruct Hin as [? | (key & []%elem_of_nil & _)]. done.
  - cbn [foldl]. apply IH; [intros k Hk; apply Hkeys, elem_of_cons; auto |].
    destruct (decide (str_replace "whatsapp_session:" "" key = u)) as [Hkey | Hkey].
    + left. unfold collect_session. rewrite Hkey.
      rewrite (Hkeys key) by (done || apply elem_of_cons; auto).
      by rewrite lookup_insert_eq.
    + rewrite collect_session_other by done.
      destruct Hin as [? | (k & [-> | Hk]%elem_of_cons & Hku)]; [by left | done |].
      right. eauto.
Qed.

Lemma redis_keys_none (db : redis_contents) :
  no_session_keys db -> redis_keys Up "whatsapp_session:" db = Return [].
Proof.
  intros Hnone. unfold redis_keys. f_equal.
  assert (Forall (fun k => String.prefix "whatsapp_session:" k <> true) (map_to_list db).*1)
    as Hall.
  { apply Forall_forall. intros key Hkey.
    apply list_elem_of_fmap in Hkey as ([key' text] & -> & Hin).
    apply elem_of_map_to_list in Hin. cbn. intros Hp.
    by rewrite (Hnone key' Hp) in Hin. }
  induction Hall as [| key keys Hkey _ IH]; [done |].
  by rewrite filter_cons_False.
Qed.

Lemma listing_fallback_mode (lk_keys : link) (lk_get : string -> link)
    (st : SessionStorage) :
  use_redis st = false -> get_all_sessions lk_keys lk_get st = fallback_storage st.
Proof. unfold get_all_sessions. by intros ->. Qed.

(** X9.  In fallback-only mode, and when the KEYS command raises,
    [get_all_sessions] answers with the contents of the fallback tier. *)
Theorem listing_without_redis (lk_keys : link) (lk_get : string -> link)
    (st : SessionStorage) :
  use_redis st = false \/ lk_keys = Down ->
  get_all_sessions lk_keys lk_get st = fallback_storage st.
Proof.
  unfold get_all_sessions. intros [-> | ->]; [done |]. by destruct (use_redis st).
Qed.

Lemma listing_without_redis_witness :
  get_all_sessions Down (fun _ => Up) busy_store = fallback_storage busy_store.
Proof. apply listing_without_redis. by right. Defined.

(** X10.  With Redis answering, [get_all_sessions] lists a user under the
    record Redis holds for them: the user identifier must not contain the
    text of the key prefix, which [key.replace] would cut out of it, and
    the record must not be empty. *)
Theorem durable_session_is_listed (lk_get : string -> link) (u : string)
    (text : gmap string json) (s : session_record) (st : SessionStorage) :
  use_redis st = true ->
  (forall key, lk_get key = Up) ->
  str_replace "whatsapp_session:" "" u = u ->
  redis_db st !! _get_redis_key u = Some text ->
  _deserialize_session text = Return s ->
  size s <> 0%nat ->
  get_all_sessions Up lk_get st !! u = Some s.
Proof.
  intros Huse Hup Hfree Hdb Htext Hsize.
  assert (str_replace "whatsapp_session:" "" (_get_redis_key u) = u) as Hback.
  { unfold _get_redis_key. by rewrite str_replace_head, Hfree. }
  unfold get_all_sessions, redis_keys. rewrite Huse.
  apply foldl_collect_listed.
  - intros key _ _. rewrite Hup, (get_session_hit u st text s) by done.
    unfold truthy_dict. by rewrite decide_False.
  - right. exists (_get_redis_key u). split; [| done].
    apply list_elem_of_filter. split; [apply prefix_app |].
    apply list_elem_of_fmap. exists (_get_redis_key u, text). split; [done |].
    by apply elem_of_map_to_list.
Qed.

Lemma durable_session_is_listed_witness :
  get_all_sessions Up (fun _ => Up) busy_store !! "+15550100"
  = Some (session_data_of (sample_session noon noon fifteen_messages)).
Proof.
  destruct (serialize_session_data_of (sample_session noon noon fifteen_messages))
    as [text Htext].
  apply (durable_session_is_listed (fun _ => Up) "+15550100" text).
  - reflexivity.
  - reflexivity.
  - vm_compute. reflexivity.
  - unfold busy_store. rewrite save_session_redis.
    cbn [use_redis connected_store _initialize_redis].
    by rewrite Htext, lookup_insert_eq.
  - by apply deserialize_serialize.
  - vm_compute. discriminate.
Defined.

(** X11.  A session whose durable write failed lives in the fallback tier
    only; while Redis answers, [get_session] serves it and
    [get_all_sessions] does not list it, since the listing is built from
    the keys Redis holds. *)
Theorem unsynced_session_is_not_listed (cfg : Settings) (o : setex_reply) (lk : link)
    (lk_get : string -> link) (u : string) (s : session_record) (st : SessionStorage) :
  use_redis st = true ->
  no_session_keys (redis_db st) ->
  o <> SetexOk ->
  get_session lk u (save_session cfg o u s st).2 = Some s
  /\ get_all_sessions Up lk_get (save_session cfg o u s st).2 = ∅.
Proof.
  intros Huse Hnone Ho. split.
  - apply get_after_save. right; right; left. apply Hnone, prefix_app.
  - unfold get_all_sessions. rewrite save_session_use_redis, Huse.
    assert (redis_db (save_session cfg o u s st).2 = redis_db st) as ->.
    { rewrite save_session_redis, Huse. destruct (_serialize_session s); [| done].
      by destruct o. }
    by rewrite redis_keys_none.
Qed.

Lemma unsynced_session_is_not_listed_witness :
  get_session Up "+15550100" unsynced_store = Some new_record
  /\ get_all_sessions Up (fun _ => Up) unsynced_store = ∅.
Proof.
  apply (unsynced_session_is_not_listed default_settings SetexRaises Up (fun _ => Up)
           "+15550100" new_record connected_store).
  - reflexivity.
  - intros key _. apply lookup_empty.
  - discriminate.
Defined.

Lemma untyped_entry_switches_sweep_off_witness :
  cleanup_expired_sessions default_settings next_month odd_store = (0, odd_store)
  /\ stale default_settings next_month
       (session_data_of (sample_session noon noon [create_system_message])) = true.
Proof.
  split; [| vm_compute; reflexivity].
  apply (untyped_entry_switches_sweep_off default_settings next_month odd_store "odd"
           (<["last_activity" := PNone]> ∅) PNone).
  - vm_compute. reflexivity.
  - vm_compute. reflexivity.
  - exact I.
Defined.

(** ** Counting and clearing *)

(** X12.  In fallback-only mode [get_active_sessions_count] sweeps first
    and then counts the fallback tier: with a TTL that [timedelta] can hold
    and timestamps that are datetimes or ISO texts, the number is that of
    the entries that are not stale. *)
Theorem active_count_in_fallback_mode (cfg : Settings) (now : datetime) (lk_keys : link)
    (lk_get : string -> link) (st : SessionStorage) :
  use_redis st = false ->
  ttl_in_range cfg ->
  timestamps_readable (fallback_storage st) ->
  (get_active_sessions_count cfg now lk_keys lk_get st).1
  = Z.of_nat (size (filter (fun kv => stale cfg now kv.2 = false) (fallback_storage st))).
Proof.
  intros Hoff Httl Hread. unfold get_active_sessions_count. cbn [fst].
  destruct (scan_runs_when_readable cfg now _ Httl Hread) as [ks Hscan].
  unfold _cleanup_expired_sessions. rewrite (cleanup_ran cfg now st ks Hscan). cbn [snd].
  by rewrite listing_fallback_mode.
Qed.

Lemma active_count_in_fallback_mode_witness :
  (get_active_sessions_count default_settings next_month Up (fun _ => Up)
     (set_fallback (fallback_storage mixed_store) offline_store)).1
  = 2.
Proof.
  rewrite (active_count_in_fallback_mode default_settings next_month Up (fun _ => Up)
             (set_fallback (fallback_storage mixed_store) offline_store)).
  - vm_compute. reflexivity.
  - reflexivity.
  - exact default_ttl_in_range.
  - exact mixed_store_readable.
Defined.

Lemma clear_session_fallback_mode (lk : link) (u : string) (st : SessionStorage) :
  use_redis st = false ->
  clear_session lk u st = (true, set_fallback (delete u (fallback_storage st)) st).
Proof. intros Hoff. unfold clear_session, delete_session. by rewrite Hoff. Qed.

Lemma clear_listed_fallback_mode (lk_del : string -> link) (users : list string) (n : Z)
    (st : SessionStorage) :
  use_redis st = false ->
  foldl (fun acc user_phone =>
           let r := clear_session (lk_del user_phone) user_phone acc.2 in
           (if r.1 then acc.1 + 1 else acc.1, r.2))
        (n, st) users
  = (n + Z.of_nat (length users),
     set_fallback (foldl (fun m user_phone => delete user_phone m) (fallback_storage st) users)
       st).
Proof.
  revert n st. induction users as [| u users IH]; intros n st Hoff.
  - cbn. f_equal; [lia | by destruct st].
  - cbn [foldl fst snd]. rewrite clear_session_fallback_mode by done. cbn [fst snd].
    rewrite IH by done. cbn [fallback_storage set_fallback length].
    f_equal. lia.
Qed.

(** X13.  In fallback-only mode the clear-all loop of main.py removes every
    session and counts each of them: the fallback tier ends empty and the
    count is the number of sessions it held. *)
Theorem clear_all_in_fallback_mode (lk_keys : link) (lk_get lk_del : string -> link)
    (st : SessionStorage) :
  use_redis st = false ->
  clear_all_sessions lk_keys lk_get lk_del st
  = (Z.of_nat (size (fallback_storage st)), set_fallback ∅ st).
Proof.
  intros Hoff. unfold clear_all_sessions, clear_listed.
  rewrite listing_fallback_mode by done.
  rewrite clear_listed_fallback_mode by done.
  rewrite length_fmap, length_map_to_list. f_equal. f_equal.
  apply map_eq. intros u. rewrite lookup_foldl_delete, lookup_empty.
  case_decide as Hin; [done |].
  destruct (fallback_storage st !! u) as [s |] eqn:Hu; [| done].
  destruct Hin. apply list_elem_of_fmap. exists (u, s). split; [done |].
  by apply elem_of_map_to_list.
Qed.

Lemma clear_all_in_fallback_mode_witness :
  clear_all_sessions Up (fun _ => Up) (fun _ => Down)
    (set_fallback (fallback_storage mixed_store) offline_store)
  = (3, offline_store).
Proof.
  apply (clear_all_in_fallback_mode Up (fun _ => Up) (fun _ => Down)
           (set_fallback (fallback_storage mixed_store) offline_store)).
  reflexivity.
Defined.

(** X14.  While Redis answers and holds no session key, the clear-all loop
    clears nothing: sessions that live in the fallback tier only are not
    listed, so they are neither deleted nor counted. *)
Theorem clear_all_misses_unsynced_sessions (lk_get lk_del : string -> link)
    (st : SessionStorage) :
  use_redis st = true ->
  no_session_keys (redis_db st) ->
  clear_all_sessions Up lk_get lk_del st = (0, st).
Proof.
  intros Huse Hnone. unfold clear_all_sessions, get_all_sessions.
  rewrite Huse, redis_keys_none by done. cbn [foldl].
  by rewrite map_to_list_empty.
Qed.

Lemma clear_all_misses_unsynced_sessions_witness :
  clear_all_sessions Up (fun _ => Up) (fun _ => Up) unsynced_store = (0, unsynced_store)
  /\ fallback_storage unsynced_store !! "+15550100" = Some new_record.
Proof.
  split; [| vm_compute; reflexivity].
  apply (clear_all_misses_unsynced_sessions (fun _ => Up) (fun _ => Up) unsynced_store).
  - reflexivity.
  - intros key _. vm_compute. reflexivity.
Defined.

(** ** More on the orchestrator *)

(** X15.  Whatever the stored data, the Redis commands and the adapter do,
    the text [process_message] returns is not empty: it is the adapter's
    non-empty answer or one of the two apologies. *)
Theorem reply_is_never_empty (cfg : Settings) (now later : datetime) (lk : link)
    (o1 o2 : setex_reply) (api : list OpenAIMessage -> completion)
    (u m : string) (st : SessionStorage) :
  reply (process_message cfg now later lk o1 o2 api u m st) <> EmptyString.
Proof.
  unfold process_message.
  destruct (get_or_create_session cfg now lk o1 u st) as [[session |] st1]; [| done].
  destruct (generate_response api _) as [text |] eqn:Hgen; cbn [truthy_str]; [| done].
  by case_decide.
Qed.

(** X16.  When the adapter answers with a non-empty text, [process_message]
    returns that text and stores, under the session's user, the session
    extended by the user message and the answer, in this order, with the
    clock after the answer as last activity; a read returns that record
    once the final write has reached Redis. *)
Theorem answered_turn_is_persisted (cfg : Settings) (now later : datetime) (lk lk' : link)
    (o1 : setex_reply) (api : list OpenAIMessage -> completion)
    (u m text : string) (st st1 : SessionStorage) (session : ChatSession) :
  get_or_create_session cfg now lk o1 u st = (Return session, st1) ->
  (forall window, api window = Choices (Some text)) ->
  text <> EmptyString ->
  let t := process_message cfg now later lk o1 SetexOk api u m st in
  reply t = text
  /\ fallback_storage (store t) !! user_phone session
     = Some (session_data_of (after_turn later session m text))
  /\ get_session lk' (user_phone session) (store t)
     = Some (session_data_of (after_turn later session m text)).
Proof.
  intros Hload Hapi Htext. cbn zeta. unfold process_message. rewrite Hload.
  unfold generate_response. rewrite Hapi. cbn [truthy_str].
  rewrite decide_False by done. cbn [reply store].
  assert (add_message later (add_message now session "user" m) "assistant" text
          = after_turn later session m text) as ->.
  { unfold add_message, after_turn. cbn. by rewrite <- app_assoc. }
  unfold _save_session_to_storage. cbn [user_phone after_turn].
  repeat split.
  - by rewrite save_session_fallback, lookup_insert_eq.
  - apply get_after_save. do 3 right. split; [done |]. apply serialize_session_data_of.
Qed.

Lemma answered_turn_is_persisted_witness :
  let t := process_message default_settings one_pm two_pm Up SetexOk SetexOk
             (fun _ => Choices (Some "fine")) "+15550100" "one more" busy_store in
  reply t = "fine"
  /\ fallback_storage (store t) !! "+15550100"
     = Some (session_data_of
               (after_turn two_pm (sample_session noon noon fifteen_messages) "one more" "fine"))
  /\ get_session Up "+15550100" (store t)
     = Some (session_data_of
               (after_turn two_pm (sample_session noon noon fifteen_messages) "one more" "fine")).
Proof.
  apply (answered_turn_is_persisted default_settings one_pm two_pm Up Up SetexOk
           (fun _ => Choices (Some "fine")) "+15550100" "one more" "fine" busy_store busy_store
           (sample_session noon noon fifteen_messages)).
  - vm_compute. reflexivity.
  - reflexivity.
  - discriminate.
Defined.

(** X17.  A stored record that lacks one of the four keys stops the user's
    conversation: [process_message] answers with the error apology without
    calling the adapter, and leaves the record where it is, so the next
    message meets it again. *)
Theorem incomplete_record_blocks_the_user (cfg : Settings) (now later : datetime)
    (lk : link) (o1 o2 : setex_reply) (api : list OpenAIMessage -> completion)
    (u m : string) (st : SessionStorage) (session_data : session_record) :
  truthy_dict (get_session lk u (_cleanup_expired_sessions cfg now st)) = Some session_data ->
  session_data !! "user_phone" = None \/ session_data !! "messages" = None
  \/ session_data !! "created_at" = None \/ session_data !! "last_activity" = None ->
  let t := process_message cfg now later lk o1 o2 api u m st in
  reply t = error_response
  /\ presented t = None
  /\ store t = _cleanup_expired_sessions cfg now st.
Proof.
  intros Hget Hmissing. cbn zeta. unfold process_message, get_or_create_session.
  rewrite Hget.
  assert (chat_session_of session_data = Raise) as ->; [| done].
  unfold chat_session_of, getitem.
  destruct (session_data !! "user_phone") as [vu |]; [| done]. cbn.
  destruct (str_field vu); [| done]. cbn.
  destruct (session_data !! "messages") as [vm |]; [| done]. cbn.
  destruct (messages_of vm); [| done]. cbn.
  destruct (session_data !! "created_at") as [vc |]; [| done]. cbn.
  destruct (datetime_field vc); [| done]. cbn.
  destruct (session_data !! "last_activity") as [va |]; [| done].
  by destruct Hmissing as [? | [? | [? | ?]]].
Qed.

Lemma incomplete_record_blocks_the_user_witness :
  let t := process_message default_settings noon one_pm Up SetexOk SetexOk
             (fun _ => Choices (Some "fine")) "bare" "hello" mixed_store in
  reply t = error_response
  /\ presented t = None
  /\ store t = _cleanup_expired_sessions default_settings noon mixed_store.
Proof.
  apply (incomplete_record_blocks_the_user default_settings noon one_pm Up SetexOk SetexOk
           (fun _ => Choices (Some "fine")) "bare" "hello" mixed_store
           (<["user_phone" := PStr "bare"]> ∅)).
  - vm_compute. reflexivity.
  - right; left. reflexivity.
Defined.

(** ** The conversation window *)

(** X18.  For a positive limit [get_conversation_history] returns the last
    [max_messages] messages in their order, or all of them when there are
    no more than that: the list returned is the history without its first
    [len - max_messages] entries. *)
Theorem history_window_positive_limit (session : ChatSession) (max_messages : Z) :
  0 < max_messages ->
  get_conversation_history session max_messages
  = drop (length (messages session) - Z.to_nat max_messages) (messages session)
  /\ length (get_conversation_history session max_messages)
     = Nat.min (Z.to_nat max_messages) (length (messages session)).
Proof.
  intros Hpos. unfold get_conversation_history, slice_from.
  destruct (Z.gtb_spec (Z.of_nat (length (messages session))) max_messages) as [Hlong | Hshort].
  - replace (- max_messages <? 0) with true by (symmetry; apply Z.ltb_lt; lia).
    replace (Z.to_nat (0 `max` (- max_messages + Z.of_nat (length (messages session)))))
      with (length (messages session) - Z.to_nat max_messages)%nat by lia.
    split; [done |]. rewrite length_drop. lia.
  - replace (length (messages session) - Z.to_nat max_messages)%nat with 0%nat by lia.
    split; [done |]. cbn [drop]. lia.
Qed.

Lemma history_window_positive_limit_witness :
  get_conversation_history (sample_session noon noon fifteen_messages) 4
  = drop (15 - 4) fifteen_messages
  /\ length (get_conversation_history (sample_session noon noon fifteen_messages) 4)
     = Nat.min 4 15.
Proof.
  apply (history_window_positive_limit (sample_session noon noon fifteen_messages) 4). lia.
Defined.

(** X19.  A limit of zero does not give an empty window: the slice
    [messages[-0:]] is the whole list, so the whole history is returned;
    a negative limit [-k] returns the history without its [k] oldest
    messages. *)
Theorem history_window_without_limit (session : ChatSession) (max_messages : Z) :
  max_messages <= 0 ->
  get_conversation_history session max_messages
  = drop (Z.to_nat (- max_messages)) (messages session).
Proof.
  intros Hneg. unfold get_conversation_history, slice_from.
  destruct (Z.gtb_spec (Z.of_nat (length (messages session))) max_messages) as [Hlong | Hshort].
  - replace (- max_messages <? 0) with false by (symmetry; apply Z.ltb_ge; lia).
    destruct (decide (- max_messages <= Z.of_nat (length (messages session)))) as [Hin | Hout].
    + by rewrite Z.min_l.
    + rewrite Z.min_r, Nat2Z.id by lia. by rewrite drop_all, drop_ge by lia.
  - replace (Z.to_nat (- max_messages)) with 0%nat by lia. done.
Qed.

Lemma history_window_without_limit_witness :
  get_conversation_history (sample_session noon noon fifteen_messages) 0 = fifteen_messages
  /\ get_conversation_history (sample_session noon noon fifteen_messages) (-2)
     = drop 2 fifteen_messages.
Proof.
  split.
  - apply (history_window_without_limit (sample_session noon noon fifteen_messages) 0). lia.
  - apply (history_window_without_limit (sample_session noon noon fifteen_messages) (-2)). lia.
Defined.



(** X21.  Clearing a session starts the conversation over: after a
    [clear_session] that answered true, in either mode of the store,
    [get_or_create_session] finds nothing for the user and returns a new
    session that holds the system message only. *)
Theorem cleared_session_starts_over (cfg : Settings) (now : datetime) (lk lk' : link)
    (o : setex_reply) (u : string) (st : SessionStorage) :
  (clear_session lk u st).1 = true ->
  (get_or_create_session cfg now lk' o u (clear_session lk u st).2).1
  = Return (new_session now u)
  /\ messages (new_session now u) = [create_system_message].
Proof.
  intros Hok. split; [| done].
  unfold clear_session in *. cbn [fst snd] in *.
  assert ((delete_session lk u st).1 = true) as Hdel by (by destruct (delete_session lk u st).1).
  set (st' := (delete_session lk u st).2).
  assert (fallback_storage st' !! u = None) as Hfb.
  { subst st'. destruct (delete_session_tiers lk u st) as (_ & -> & _).
    apply lookup_delete_eq. }
  unfold get_or_create_session.
  destruct (cleanup_tiers cfg now st') as [Hdb Huse].
  rewrite (get_session_ext lk' u (_cleanup_expired_sessions cfg now st') st').
  - subst st'. by rewrite get_after_delete.
  - done.
  - by rewrite Hdb.
  - by rewrite cleanup_absent.
Qed.

Lemma cleared_session_starts_over_witness :
  (get_or_create_session default_settings one_pm Up SetexOk "+15550100"
     (clear_session Up "+15550100" busy_store).2).1
  = Return (new_session one_pm "+15550100")
  /\ messages (new_session one_pm "+15550100") = [create_system_message].
Proof.
  apply (cleared_session_starts_over default_settings one_pm Up Up SetexOk "+15550100"
           busy_store).
  vm_compute. reflexivity.
Defined.

(** ** Phone numbers (services/twilio_service.py, main.py) *)

Lemma format_phone_number_form (phone : string) :
  exists number,
    format_phone_number phone = "whatsapp:" +:+ number
    /\ String.prefix "+" number = true
    /\ digits_and_plus number = true.
Proof.
  unfold format_phone_number. cbv zeta.
  set (kept := keep_digits_plus _).
  assert (digits_and_plus kept = true) as Hkept by apply keep_digits_plus_clean.
  destruct (String.prefix "+" kept) eqn:Hplus.
  - by exists kept.
  - exists ("+" +:+ kept). split; [done |]. split; [apply prefix_app |].
    change ("+" +:+ kept) with (String "+" kept). cbn [digits_and_plus].
    by rewrite Hkept.
Qed.

Lemma format_phone_number_fixed (number : string) :
  String.prefix "+" number = true ->
  digits_and_plus number = true ->
  format_phone_number ("whatsapp:" +:+ number) = "whatsapp:" +:+ number.
Proof.
  intros Hplus Hclean. unfold format_phone_number. cbv zeta.
  rewrite prefix_app.
  change (str_drop 9 ("whatsapp:" +:+ number)) with number.
  by rewrite keep_digits_plus_id, Hplus.
Qed.

Lemma webhook_user_strips (u : string) :
  digits_and_plus u = true -> webhook_user ("whatsapp:" +:+ u) = u.
Proof.
  intros Hu. unfold webhook_user.
  pose proof (str_replace_head "w" "hatsapp:" EmptyString u) as Hhead.
  rewrite Hhead. by rewrite str_replace_digits_and_plus.
Qed.

(** X22.  Whatever text it is given, [format_phone_number] returns the
    prefix [whatsapp:] followed by a number that starts with a plus sign and
    holds digits and plus signs only. *)
Theorem formatted_number_shape (phone : string) :
  exists number,
    format_phone_number phone = "whatsapp:" +:+ number
    /\ String.prefix "+" number = true
    /\ digits_and_plus number = true.
Proof. apply format_phone_number_form. Qed.

(** X23.  [format_phone_number] is idempotent: formatting a formatted
    number changes nothing, so no second prefix and no second plus sign is
    ever added. *)
Theorem format_phone_number_idempotent (phone : string) :
  format_phone_number (format_phone_number phone) = format_phone_number phone.
Proof.
  destruct (format_phone_number_form phone) as (number & -> & Hplus & Hclean).
  by apply format_phone_number_fixed.
Qed.

(** X24.  The key under which the webhook keeps a conversation is the
    sender's number without the [whatsapp:] prefix: for a [From] field made
    of the prefix and a number of digits and plus signs, the webhook runs
    [process_message] for that number. *)
Theorem webhook_keys_session_by_number (cfg : Settings) (now later : datetime) (lk : link)
    (o1 o2 : setex_reply) (api : list OpenAIMessage -> completion)
    (number body : string) (st : SessionStorage) :
  digits_and_plus number = true ->
  twilio_webhook cfg now later lk o1 o2 api ("whatsapp:" +:+ number) body st
  = process_message cfg now later lk o1 o2 api number body st.
Proof. intros Hn. unfold twilio_webhook. by rewrite webhook_user_strips. Qed.

Lemma webhook_keys_session_by_number_witness :
  twilio_webhook default_settings one_pm two_pm Up SetexOk SetexOk
    (fun _ => Choices (Some "fine")) "whatsapp:+15550100" "hello" connected_store
  = process_message default_settings one_pm two_pm Up SetexOk SetexOk
      (fun _ => Choices (Some "fine")) "+15550100" "hello" connected_store.
Proof.
  apply (webhook_keys_session_by_number default_settings one_pm two_pm Up SetexOk SetexOk
           (fun _ => Choices (Some "fine")) "+15550100" "hello" connected_store).
  reflexivity.
Defined.

(** X25.  The [/send-message] endpoint hands Twilio the formatted number
    as it is: [send_message] finds the prefix in place and adds no second
    one, and the verdict is that of the Twilio call. *)
Theorem endpoint_sends_to_formatted_number (tw : twilio_reply) (user_phone message : string) :
  send_message_endpoint tw user_phone message
  = (match tw with Accepted => true | Refused => false end,
     format_phone_number user_phone).
Proof.
  unfold send_message_endpoint, send_message.
  destruct (format_phone_number_form user_phone) as (number & -> & _).
  rewrite prefix_app. by destruct tw.
Qed.

(** X26.  A message sent through the [/send-message] endpoint to the user
    identifier the webhook derived from a [From] field goes to that [From]
    address, when the address is the prefix followed by a plus sign and
    digits. *)
Theorem endpoint_answers_webhook_sender (tw : twilio_reply) (number message : string) :
  String.prefix "+" number = true ->
  digits_and_plus number = true ->
  (send_message_endpoint tw (webhook_user ("whatsapp:" +:+ number)) message).2
  = "whatsapp:" +:+ number.
Proof.
  intros Hplus Hclean. rewrite webhook_user_strips by done.
  unfold send_message_endpoint, send_message.
  assert (format_phone_number number = "whatsapp:" +:+ number) as ->.
  { unfold format_phone_number. cbv zeta.
    destruct (String.prefix "whatsapp:" number) eqn:Hpre.
    - destruct number as [| c number]; [done |]. cbn [String.prefix] in Hpre, Hplus.
      destruct (ascii_dec "w" c) as [<- |]; [| done].
      by destruct (ascii_dec "+" "w").
    - by rewrite keep_digits_plus_id, Hplus. }
  rewrite prefix_app. by destruct tw.
Qed.

Lemma endpoint_answers_webhook_sender_witness :
  (send_message_endpoint Accepted (webhook_user "whatsapp:+15550100") "hello").2
  = "whatsapp:+15550100".
Proof.
  apply (endpoint_answers_webhook_sender Accepted "+15550100" "hello"); reflexivity.
Defined.
